(** * ads.core: a shallow embedding of the adsws-api client

    The development follows [src/ads/core.py] class by class.  Every Python
    class is a [Module]; instance attributes are record fields, methods are
    functions in a state-and-exception monad whose state is the pair of the
    outside world (environment variables, files, the log of HTTP requests,
    the log of warnings) and the object [self].  Exceptions keep the state
    reached when they were raised, as in Python. *)

From Stdlib Require Import ZArith Lia Ascii.
From Stdlib Require DecimalString.
From stdpp Require Import base option list strings gmap.

Set Warnings "-register-all".

Local Open Scope string_scope.
Local Open Scope Z_scope.
Local Open Scope list_scope.

(** ** Python values *)

(** [core.py] runs under both major versions ([six], [PY3]); they differ in
    [/] on integers, in ordering values of different types and in the
    characters [str.strip] removes. *)
Inductive PyVersion := Py2 | Py3.

(** What [json.loads] produces: [None], booleans, integers, strings, lists
    and dictionaries with string keys (floats are left out).  A dictionary
    is the list of its items; decoded dictionaries have distinct keys. *)
Inductive value :=
  | VNone
  | VBool (b : bool)
  | VInt (n : Z)
  | VStr (s : string)
  | VList (l : list value)
  | VDict (d : list (string * value)).

Inductive exn :=
  | APIResponseError (msg : string)
  | SolrResponseParseError (msg : string)
  | StopIteration (msg : string)
  | AssertionError (msg : string)
  | KeyError (key : string)
  | AttributeError (name : string)
  | TypeError (msg : string)
  | ValueError
  | IndexError
  | ZeroDivisionError
  | NotImplementedError
  | ConnectionError
  | RecursionError
  | OverflowError.

Inductive result (A : Type) :=
  | Ok (a : A)
  | Raise (e : exn).
Arguments Ok {A} a.
Arguments Raise {A} e.

(** The text of an exception raised by the interpreter itself is left
    out. *)
Definition builtin_msg : string := EmptyString.

(** [d.get(k)] on the items of a dictionary. *)
Fixpoint assoc (k : string) (d : list (string * value)) : option value :=
  match d with
  | [] => None
  | (k', v) :: r => if String.eqb k k' then Some v else assoc k r
  end.

(** [v[k]] for a string key [k]: only a dictionary can be subscripted by a
    string, and a missing key is a [KeyError] carrying the key. *)
Definition subscript (v : value) (k : string) : result value :=
  match v with
  | VDict d =>
      match assoc k d with
      | Some x => Ok x
      | None => Raise (KeyError k)
      end
  | _ => Raise (TypeError builtin_msg)
  end.

(** [a == b] on decoded values: [bool] is a subclass of [int], lists compare
    item by item, dictionaries as maps. *)
Fixpoint py_eq (a b : value) {struct a} : bool :=
  match a, b with
  | VNone, VNone => true
  | VBool x, VBool y => Bool.eqb x y
  | VBool x, VInt n | VInt n, VBool x => Z.eqb (Z.b2z x) n
  | VInt n, VInt m => Z.eqb n m
  | VStr s, VStr t => String.eqb s t
  | VList l, VList l' =>
      (fix go (l l' : list value) : bool :=
         match l, l' with
         | [], [] => true
         | x :: xs, y :: ys => py_eq x y && go xs ys
         | _, _ => false
         end) l l'
  | VDict d, VDict d' =>
      Nat.eqb (length d) (length d') &&
      (fix each (d : list (string * value)) : bool :=
         match d with
         | [] => true
         | (k, v) :: r =>
             match assoc k d' with
             | Some v' => py_eq v v'
             | None => false
             end && each r
         end) d
  | _, _ => false
  end.

(** [v is None] *)
Definition is_none (v : value) : bool :=
  match v with VNone => true | _ => false end.

(** [n >= v] for an integer [n].  Python 3 refuses to order an integer and
    a non-number; Python 2 orders [None] below every number and every
    number below strings, lists and dictionaries. *)
Definition int_ge (py : PyVersion) (n : Z) (v : value) : result bool :=
  match v, py with
  | VInt m, _ => Ok (m <=? n)
  | VBool b, _ => Ok (Z.b2z b <=? n)
  | VNone, Py2 => Ok true
  | _, Py2 => Ok false
  | _, Py3 => Raise (TypeError builtin_msg)
  end.

(** [str(KeyError(k))], which is what ["{}".format(e)] gives: the [repr] of
    the key. *)
Definition KeyError_str (k : string) : string := "'" +:+ k +:+ "'".

(** ** The state-and-exception monad *)

Definition M (St A : Type) : Type := St → result A * St.

Definition ret {St A} (a : A) : M St A := λ s, (Ok a, s).
Definition raise {St A} (e : exn) : M St A := λ s, (Raise e, s).
Definition bind {St A B} (m : M St A) (k : A → M St B) : M St B :=
  λ s, match m s with
       | (Ok a, s') => k a s'
       | (Raise e, s') => (Raise e, s')
       end.
Definition get {St} : M St St := λ s, (Ok s, s).
Definition gets {St A} (f : St → A) : M St A := λ s, (Ok (f s), s).
Definition modify {St} (f : St → St) : M St unit := λ s, (Ok tt, f s).
Definition lift_result {St A} (r : result A) : M St A := λ s, (r, s).

Notation "'do' x <- m ; k" := (bind m (λ x, k))
  (at level 10, x name, m at level 100, k at level 200,
   format "'[v' 'do'  x  <-  m ;  '/' k ']'").
Notation "m ;; k" := (bind m (λ _, k))
  (at level 100, k at level 200, right associativity).

(** The same for code that touches no state. *)
Definition rbind {A B} (r : result A) (k : A → result B) : result B :=
  match r with
  | Ok a => k a
  | Raise e => Raise e
  end.
Notation "'let*' x := r 'in' k" := (rbind r (λ x, k))
  (at level 10, x name, r at level 100, k at level 200,
   format "'[v' 'let*'  x  :=  r  'in'  '/' k ']'").

(** Run a computation on a component of the state: [self.base] inside
    [self], or a local object next to the world. *)
Definition zoom {St Sub A} (proj : St → Sub) (inj : Sub → St → St)
    (m : M Sub A) : M St A :=
  λ s, let '(r, sub) := m (proj s) in (r, inj sub s).

(** ** The outside world *)

Inductive fl_param :=
  | FlOne (field : string)
  | FlMany (fields : list string).

(** The dictionary [SearchQuery._query]: a key is present or not. *)
Module Query.
Record t := mk {
  q : option string;
  fq : option string;
  fl : option fl_param;
  sort : option string;
  start : option Z;
  rows : option Z;
}.

Definition set_start (n : Z) (d : t) : t :=
  mk (q d) (fq d) (fl d) (sort d) (Some n) (rows d).

(** [d[k]] on an entry of the dictionary. *)
Definition item {A} (k : string) (entry : option A) : result A :=
  match entry with
  | Some x => Ok x
  | None => Raise (KeyError k)
  end.
End Query.

(** [requests]' [CaseInsensitiveDict], the type of [response.headers]: a
    header is kept under the lower-cased form of its name, and a name is
    looked up by its lower-cased form, so that a name finds its header in
    whatever case the two were written.  The names of headers are made of
    ASCII characters, whose capitals are the letters that [lower]
    changes. *)
Definition lower_ascii (c : Ascii.ascii) : Ascii.ascii :=
  let n := Ascii.nat_of_ascii c in
  if ((65 <=? n) && (n <=? 90))%nat then Ascii.ascii_of_nat (n + 32) else c.

Fixpoint lower (s : string) : string :=
  match s with
  | EmptyString => EmptyString
  | String c r => String (lower_ascii c) (lower r)
  end.

Record Headers := mkHeaders {
  store : gmap string string;          (* lower-cased name -> value *)
}.

#[global] Instance Headers_lookup : Lookup string string Headers :=
  λ name hs, store hs !! lower name.
#[global] Instance Headers_empty : Empty Headers := mkHeaders ∅.
#[global] Instance Headers_insert : Insert string string Headers :=
  λ name v hs, mkHeaders (<[lower name := v]> (store hs)).

Record HTTPResponse := mkHTTPResponse {
  ok : bool;
  text : string;
  headers : Headers;
}.

(** One call of [session.get(url, params=...)]. *)
Record Request := mkRequest {
  url : string;
  session_headers : gmap string string;
  req_params : Query.t;
}.

Record World := mkWorld {
  environ : gmap string string;       (* os.environ *)
  files : gmap string string;         (* the text files: path -> what
                                         [read] returns; absent: IOError *)
  requests : list Request;            (* requests sent so far, oldest first *)
  warnings : list string;             (* warnings.warn, oldest first *)
}.

Definition warn (msg : string) : M World unit :=
  modify (λ w, mkWorld (environ w) (files w) (requests w) (warnings w ++ [msg])).

Definition log_request (r : Request) : M World unit :=
  modify (λ w, mkWorld (environ w) (files w) (requests w ++ [r]) (warnings w)).

(** A method's state is the world and [self]. *)
Definition in_world {Self A} (m : M World A) : M (World * Self) A :=
  zoom fst (λ w s, (w, s.2)) m.
Definition self {Self} : M (World * Self) Self := gets snd.
Definition set_self {Self} (f : Self → Self) : M (World * Self) unit :=
  modify (λ s, (s.1, f s.2)).

(** What [core.py] imports and what it talks to: the constants of
    [ads.config] and [ads.__version__], the [json] decoder, [str.format] on
    a value, the default headers of [requests.session()] and the remote
    service, which answers a request or fails to. *)
Class Environment := {
  py : PyVersion;
  SEARCH_URL : string;
  TOKEN_FILES : list string;
  TOKEN_ENVIRON_VARS : list string;
  __version__ : string;
  json_loads : string → option value;
  str_format : value → string;
  default_headers : gmap string string;
  http_get : Request → result HTTPResponse;
}.

(** ** class Article *)

Module Article.

(** [_raw] is the dictionary of the keyword arguments, [__dict__] the
    attributes set from them (every attribute but [_raw] itself; a
    keyword argument named [_raw], which would rebind it, is left out). *)
Record t := mk {
  _raw : gmap string value;
  __dict__ : gmap string value;
}.

(** The properties without a setter: [setattr] on them fails. *)
Definition read_only : list string :=
  ["bibtex"; "references"; "citations"; "metrics"].

(** The [cached_property] fields, in the order of the source. *)
Definition cached_properties : list string :=
  ["abstract"; "aff"; "author"; "citation_count"; "bibstem"; "database";
   "identifier"; "first_author_norm"; "issue"; "keyword"; "page";
   "property"; "pub"; "pubdate"; "read_count"; "title"; "volume"; "year"].

Definition dict_of (kwargs : list (string * value)) : gmap string value :=
  foldl (λ d kv, <[kv.1 := kv.2]> d) ∅ kwargs.

(** [for key, value in six.iteritems(kwargs): setattr(self, key, value)],
    for [kwargs] in the order of that iteration and keys that no
    attribute of the class or of [object] stands in the way of. *)
Fixpoint setattrs (kwargs : list (string * value)) (d : gmap string value)
    : result (gmap string value) :=
  match kwargs with
  | [] => Ok d
  | (key, v) :: r =>
      if bool_decide (key ∈ read_only) then Raise (AttributeError key)
      else setattrs r (<[key := v]> d)
  end.

Definition __init__ (kwargs : list (string * value)) : M World t :=
  (if assoc "id" kwargs is None
   then warn "No article id found -- on-demand attribute lookup will fail"
   else ret tt) ;;
  do d <- lift_result (setattrs kwargs ∅);
  ret (mk (dict_of kwargs) d).

(** [Article] applied to the unpacked [doc]: only a mapping can be
    unpacked into keyword arguments. *)
Definition new (doc : value) : M World t :=
  match doc with
  | VDict d => __init__ d
  | _ => raise (TypeError builtin_msg)
  end.

(** [hasattr(self, name)] for a name that is no method or property of
    the class. *)
Definition hasattr (self : t) (name : string) : bool :=
  bool_decide (is_Some (__dict__ self !! name)).

(** [self.name], read where [hasattr(self, name)] holds. *)
Definition attr (self : t) (name : string) : value :=
  default VNone (__dict__ self !! name).

Definition __eq__ (self other : t) : result bool :=
  if negb (hasattr self "bibcode") || negb (hasattr other "bibcode") ||
     is_none (attr self "bibcode") || is_none (attr other "bibcode")
  then Raise (TypeError "Cannot compare articles without bibcodes")
  else Ok (py_eq (attr self "bibcode") (attr other "bibcode")).

Definition __ne__ (self other : t) : result bool :=
  let* r := __eq__ self other in Ok (negb r).

Definition keys (self : t) : list string := (map_to_list (_raw self)).*1.
Definition items (self : t) : list (string * value) := map_to_list (_raw self).

End Article.

(** ** class APIResponse *)

Module APIResponse.

(** The classmethod, for a subclass given by its constructor [cls] and
    the assignment to its attribute [response]. *)
Definition load_http_response {T} (cls : string → result T)
    (set_response : HTTPResponse → T → T) (HTTPResponse : HTTPResponse)
    : result T :=
  if negb (ok HTTPResponse) then Raise (APIResponseError (text HTTPResponse))
  else
    let* c := cls (text HTTPResponse) in
    Ok (set_response HTTPResponse c).

(** [get_ratelimits], on the attribute [response]: it reads the headers
    of the HTTP response that was attached, each by a lookup that
    ignores case, and anything else has no headers. *)
Definition get_ratelimits (response : option HTTPResponse)
    : result (option string * option string * option string) :=
  match response with
  | Some r =>
      Ok (headers r !! "X-RateLimit-Limit",
          headers r !! "X-RateLimit-Remaining",
          headers r !! "X-RateLimit-Reset")
  | None => Raise (AttributeError "headers")
  end.

End APIResponse.

(** ** class SolrResponse *)

Module SolrResponse.

(** [__init__] binds [response] to the dictionary under the key
    [response]; [load_http_response] rebinds it to the HTTP response. *)
Inductive response_attr :=
  | FromJson (v : value)
  | FromHTTP (h : HTTPResponse).

Record t := mk {
  _raw : string;
  json : value;
  _articles : option (list Article.t);
  responseHeader : value;
  params : value;
  response : response_attr;
  numFound : value;
  docs : value;
}.

Definition __init__ `{Environment} (raw : string) : result t :=
  match json_loads raw with
  | None => Raise ValueError
  | Some json =>
      match
        (let* responseHeader := subscript json "responseHeader" in
         let* hdr := subscript json "responseHeader" in
         let* params := subscript hdr "params" in
         let* response := subscript json "response" in
         let* numFound := subscript response "numFound" in
         let* docs := subscript response "docs" in
         Ok (mk raw json None responseHeader params (FromJson response)
               numFound docs))
      with
      | Raise (KeyError e) => Raise (SolrResponseParseError (KeyError_str e))
      | r => r
      end
  end.

Definition set_response (h : HTTPResponse) (c : t) : t :=
  mk (_raw c) (json c) (_articles c) (responseHeader c) (params c)
     (FromHTTP h) (numFound c) (docs c).

Definition set_articles (a : option (list Article.t)) (c : t) : t :=
  mk (_raw c) (json c) a (responseHeader c) (params c)
     (response c) (numFound c) (docs c).

Definition load_http_response `{Environment} : HTTPResponse → result t :=
  APIResponse.load_http_response __init__ set_response.

Definition get_ratelimits (c : t)
    : result (option string * option string * option string) :=
  APIResponse.get_ratelimits
    match response c with
    | FromHTTP h => Some h
    | FromJson _ => None
    end.

(** [for doc in self.docs]: what iterating over a value yields. *)
Definition py_iter (v : value) : result (list value) :=
  match v with
  | VList l => Ok l
  | VDict d => Ok (VStr <$> d.*1)
  | VStr s =>
      Ok ((λ c, VStr (String c EmptyString)) <$> String.list_ascii_of_string s)
  | _ => Raise (TypeError builtin_msg)
  end.

(** The loop that appends to [self._articles] the [Article] made of each
    document. *)
Fixpoint wrap (ds : list value) : M (World * t) unit :=
  match ds with
  | [] => ret tt
  | doc :: r =>
      do a <- in_world (Article.new doc);
      set_self (λ c, set_articles (Some (default [] (_articles c) ++ [a])) c) ;;
      wrap r
  end.

(** The property [articles]. *)
Definition articles : M (World * t) (list Article.t) :=
  do c <- self;
  (if _articles c is None then
     set_self (set_articles (Some [])) ;;
     do ds <- lift_result (py_iter (docs c));
     wrap ds
   else ret tt) ;;
  do c <- self;
  ret (default [] (_articles c)).

End SolrResponse.

(** ** class BaseQuery *)

Module BaseQuery.

Record t := mk {
  _session : option (gmap string string);   (* the headers of the session *)
  _token : option string;
}.

(** The class attributes [_session = None] and [_token = None]. *)
Definition fresh : t := mk None None.

Definition set_token (v : option string) (b : t) : t := mk (_session b) v.
Definition set_session (s : option (gmap string string)) (b : t) : t :=
  mk s (_token b).

(** The characters [str.strip()] removes, each by the bytes that write
    it.  What [fp.read()] returns under Python 2 is a byte string, of
    which [strip] removes the six blanks of C's [isspace].  Under Python
    3 it is text, written here in UTF-8, of which [strip] removes every
    character that [str.isspace] holds of: the same six, the separators
    0x1c to 0x1f, and U+0085, U+00A0, U+1680, U+2000 to U+200A, U+2028,
    U+2029, U+202F, U+205F and U+3000. *)
Definition whitespace (py : PyVersion) : list (list Ascii.ascii) :=
  map Ascii.ascii_of_nat <$>
    ([[9]; [10]; [11]; [12]; [13]; [32]] ++
     match py with
     | Py2 => []
     | Py3 =>
         [[28]; [29]; [30]; [31];
          [194; 133]; [194; 160]; [225; 154; 128];
          [226; 128; 128]; [226; 128; 129]; [226; 128; 130];
          [226; 128; 131]; [226; 128; 132]; [226; 128; 133];
          [226; 128; 134]; [226; 128; 135]; [226; 128; 136];
          [226; 128; 137]; [226; 128; 138];
          [226; 128; 168]; [226; 128; 169]; [226; 128; 175];
          [226; 129; 159]; [227; 128; 128]]
     end)%nat.

Fixpoint starts_with (p l : list Ascii.ascii) : bool :=
  match p, l with
  | [], _ => true
  | a :: p', b :: l' => Ascii.eqb a b && starts_with p' l'
  | _ :: _, [] => false
  end.

(** Removing the leading characters among [ws]; [skip] counts the bytes
    still to drop of the character being removed. *)
Fixpoint lstrip (ws : list (list Ascii.ascii)) (skip : nat)
    (l : list Ascii.ascii) : list Ascii.ascii :=
  match l with
  | [] => []
  | _ :: r =>
      match skip with
      | S n => lstrip ws n r
      | O =>
          match List.find (λ p, starts_with p l) ws with
          | Some p => lstrip ws (length p - 1) r
          | None => l
          end
      end
  end.

(** [s.strip()]: the leading characters, then the trailing ones, whose
    bytes read backwards lead the text read backwards. *)
Definition strip (py : PyVersion) (s : string) : string :=
  String.string_of_list_ascii
    (rev (lstrip (map (@rev Ascii.ascii) (whitespace py)) 0
            (rev (lstrip (whitespace py) 0
                    (String.list_ascii_of_string s))))).

(** [for v in map(os.environ.get, TOKEN_ENVIRON_VARS): if v is not None] *)
Fixpoint first_environ (environ : gmap string string) (vars : list string)
    : option string :=
  match vars with
  | [] => None
  | name :: r =>
      match environ !! name with
      | Some v => Some v
      | None => first_environ environ r
      end
  end.

(** [for f in TOKEN_FILES]: the stripped content of the first file that
    opens.  The files of a world are text files, given by what [read]
    returns of them; a file that opens and holds no text in the encoding
    of the interpreter, whose [read] raises [UnicodeDecodeError] under
    Python 3, is none of them. *)
Fixpoint first_file (py : PyVersion) (files : gmap string string)
    (paths : list string) : option string :=
  match paths with
  | [] => None
  | f :: r =>
      match files !! f with
      | Some content => Some (strip py content)
      | None => first_file py files r
      end
  end.

(** The property [token]. *)
Definition token `{Environment} : M (World * t) (option string) :=
  do b <- self;
  match _token b with
  | None =>
      do w <- gets fst;
      match first_environ (environ w) TOKEN_ENVIRON_VARS with
      | Some v => set_self (set_token (Some v)) ;; ret (Some v)
      | None =>
          match first_file py (files w) TOKEN_FILES with
          | Some v => set_self (set_token (Some v)) ;; ret (Some v)
          | None =>
              in_world (warn "No token found") ;;
              do b <- self;
              ret (_token b)
          end
      end
  | Some v => ret (Some v)
  end.

(** [token.setter] *)
Definition token_setter (v : option string) : M (World * t) unit :=
  set_self (set_token v).

(** ["Bearer {}".format(self.token)] *)
Definition bearer (tok : option string) : string :=
  "Bearer " +:+ default "None" tok.

(** The property [session]; a session is the dictionary of its headers. *)
Definition session `{Environment} : M (World * t) (gmap string string) :=
  do b <- self;
  match _session b with
  | None =>
      set_self (set_session (Some default_headers)) ;;
      do tok <- token;
      set_self (set_session (Some (
        <["Content-Type" := "application/json"]> (
        <["User-Agent" := "ads-api-client/" +:+ __version__]> (
        <["Authorization" := bearer tok]> default_headers))))) ;;
      do b <- self;
      ret (default ∅ (_session b))
  | Some s => ret s
  end.

End BaseQuery.

(** ** class SearchQuery *)

Module SearchQuery.

Record t := mk {
  base : BaseQuery.t;
  _articles : list Article.t;
  response : option SolrResponse.t;
  max_pages : Z;
  __iter_counter : nat;
  _query : Query.t;
}.

Definition HTTP_ENDPOINT `{Environment} : string := SEARCH_URL.
Definition DEFAULT_FIELDS : list string :=
  ["author"; "first_author"; "bibcode"; "id"; "year"].

Definition set_base (b : BaseQuery.t) (sq : t) : t :=
  mk b (_articles sq) (response sq) (max_pages sq) (__iter_counter sq) (_query sq).
Definition set_articles (a : list Article.t) (sq : t) : t :=
  mk (base sq) a (response sq) (max_pages sq) (__iter_counter sq) (_query sq).
Definition set_response (r : option SolrResponse.t) (sq : t) : t :=
  mk (base sq) (_articles sq) r (max_pages sq) (__iter_counter sq) (_query sq).
Definition set_max_pages (m : Z) (sq : t) : t :=
  mk (base sq) (_articles sq) (response sq) m (__iter_counter sq) (_query sq).
Definition set_iter_counter (c : nat) (sq : t) : t :=
  mk (base sq) (_articles sq) (response sq) (max_pages sq) c (_query sq).
Definition set_query (d : Query.t) (sq : t) : t :=
  mk (base sq) (_articles sq) (response sq) (max_pages sq) (__iter_counter sq) d.

(** The inherited properties, run on the [BaseQuery] part of [self]. *)
Definition on_base {A} (m : M (World * BaseQuery.t) A) : M (World * t) A :=
  zoom (λ s, (s.1, base s.2)) (λ sub s, (sub.1, set_base sub.2 s.2)) m.

(** The attribute [name] of [self.response], which [None] does not
    have. *)
Definition on_response {A} (name : string) (m : M (World * SolrResponse.t) A)
    : M (World * t) A :=
  λ s, match response s.2 with
       | Some r =>
           let '(res, (w, r')) := m (s.1, r) in
           (res, (w, set_response (Some r') s.2))
       | None => (Raise (AttributeError name), s)
       end.

(** [['{}:"{}"'.format(k, v) for k, v in six.iteritems(kwargs)]] *)
Definition format_kwarg (kv : string * string) : string :=
  kv.1 +:+ ":" +:+ String (Ascii.ascii_of_nat 34) EmptyString +:+ kv.2
       +:+ String (Ascii.ascii_of_nat 34) EmptyString.

(** [sep.join(l)] *)
Fixpoint join (sep : string) (l : list string) : string :=
  match l with
  | [] => EmptyString
  | [x] => x
  | x :: r => x +:+ sep +:+ join sep r
  end.

(** What the dictionary [self._query] holds when the constructor is
    done: the caller's [query_dict] with its defaults set, or the
    parameters that are not [None], with the keyword arguments appended
    to [q].  In the first case the dictionary is the caller's own object,
    changed in place: [SharedQuery] below has it at its address. *)
Definition initial_query (query_dict : option Query.t)
    (q fq : option string) (fl : option fl_param) (sort : option string)
    (start rows : option Z) (kwargs : list (string * string)) : Query.t :=
  match query_dict with
  | Some d =>
      Query.mk (Query.q d) (Query.fq d) (Query.fl d) (Query.sort d)
        (Some (default 0 (Query.start d)))
        (Some (default 50 (Query.rows d)))
  | None =>
      let q0 := match q with Some s => s | None => EmptyString end in
      let q1 :=
        match kwargs with
        | [] => q0
        | _ => q0 +:+ " " +:+ join " " (format_kwarg <$> kwargs)
        end in
      Query.mk (Some q1) fq fl sort start rows
  end.

(** The constructor.  The defaults of the source are [fl=DEFAULT_FIELDS],
    [start=0], [rows=50], [max_pages=3].  Comparing a missing [rows] with
    [0] is false in Python 2 and a [TypeError] in Python 3. *)
Definition __init__ `{Environment} (query_dict : option Query.t)
    (q fq : option string) (fl : option fl_param) (sort : option string)
    (start rows : option Z) (max_pages : Z) (kwargs : list (string * string))
    : result t :=
  let _query := initial_query query_dict q fq fl sort start rows kwargs in
  let* _ :=
    match Query.rows _query, py with
    | Some r, _ =>
        if 0 <? r then Ok tt
        else Raise (AssertionError "rows must be greater than 0")
    | None, Py2 => Raise (AssertionError "rows must be greater than 0")
    | None, Py3 => Raise (TypeError builtin_msg)
    end in
  let* _ :=
    match Query.q _query with
    | Some (String _ _) => Ok tt
    | _ => Raise (AssertionError "q must not be empty")
    end in
  Ok (mk BaseQuery.fresh [] None max_pages 0 _query).

(** The read-only properties. *)
Definition articles (sq : t) : list Article.t := _articles sq.
Definition query (sq : t) : Query.t := _query sq.

Definition execute `{Environment} : M (World * t) unit :=
  do session <- on_base BaseQuery.session;
  do sq <- self;
  let request := mkRequest HTTP_ENDPOINT session (query sq) in
  in_world (log_request request) ;;
  do http <- lift_result (http_get request);
  do r <- lift_result (SolrResponse.load_http_response http);
  set_self (set_response (Some r)) ;;
  do new <- on_response "articles" SolrResponse.articles;
  set_self (λ sq, set_articles (_articles sq ++ new) sq) ;;
  do sq <- self;
  do start <- lift_result (Query.item "start" (Query.start (_query sq)));
  do rows <- lift_result (Query.item "rows" (Query.rows (_query sq)));
  set_self (set_query (Query.set_start (start + rows) (_query sq))).

(** [math.ceil(n / rows)]: [/] floors two integers in Python 2 and is
    the true division in Python 3.  The ceiling is taken of the exact
    quotient here; [true_page_of] below rounds the quotient as the
    interpreter does, which makes no difference while [n] and [rows] are
    below [2^53]. *)
Definition page_of (py : PyVersion) (n rows : Z) : result Z :=
  if rows =? 0 then Raise ZeroDivisionError
  else match py with
       | Py2 => Ok (n / rows)
       | Py3 => Ok (- ((- n) / rows))
       end.

(** The same under Python 3 as the interpreter computes it: [n / rows]
    on two integers is the binary64 number nearest to the quotient, the
    one of even mantissa when two are equally near, and [math.ceil] is
    exact on it.  [nearest_even a b] is the integer nearest to [a / b]
    for positive [b]; [binary64 a b], for positive [a] and [b], is the
    mantissa [m] and the scale [s] of that number, which is [m / 2^s], or
    [m * 2^(-s)] when [s] is negative; a quotient of at least [2^1024]
    has no such number, one below [2^(-1075)] gives zero. *)
Definition nearest_even (a b : Z) : Z :=
  match 2 * (a mod b) ?= b with
  | Lt => a / b
  | Gt => a / b + 1
  | Eq => if Z.even (a / b) then a / b else a / b + 1
  end.

Definition binary64 (a b : Z) : Z * Z :=
  let e0 := Z.log2 a - Z.log2 b in
  let below :=
    if 0 <=? e0 then a <? b * 2 ^ e0 else a * 2 ^ (- e0) <? b in
  let e := Z.max (if below then e0 - 1 else e0) (-1022) in
  let s := 52 - e in
  (if 0 <=? s then nearest_even (a * 2 ^ s) b
   else nearest_even a (b * 2 ^ (- s)),
   s).

Definition true_page_of (n rows : Z) : result Z :=
  if rows =? 0 then Raise ZeroDivisionError
  else if n =? 0 then Ok 0
  else
    let '(m, s) := binary64 (Z.abs n) (Z.abs rows) in
    if (s <? 0) && (2 ^ 1024 <=? m * 2 ^ (- s)) then Raise OverflowError
    else
      let negative := xorb (n <? 0) (rows <? 0) in
      Ok (if 0 <=? s
          then if negative then - (m / 2 ^ s) else - ((- m) / 2 ^ s)
          else if negative then - (m * 2 ^ (- s)) else m * 2 ^ (- s)).

(** [cur = self._articles[self.__iter_counter]] followed by the two lines
    after the [try]. *)
Definition yield_current : M (World * t) Article.t :=
  do sq <- self;
  match _articles sq !! __iter_counter sq with
  | Some cur =>
      set_self (set_iter_counter (S (__iter_counter sq))) ;;
      ret cur
  | None => raise IndexError
  end.

Definition __next__ `{Environment} : M (World * t) Article.t :=
  do sq <- self;
  (if response sq is None then execute else ret tt) ;;
  do sq <- self;
  match _articles sq !! __iter_counter sq with
  | Some _ => yield_current
  | None =>
      do numFound <- on_response "numFound"
                       (gets (λ s, SolrResponse.numFound s.2));
      do all <- lift_result
                  (int_ge py (Z.of_nat (length (articles sq))) numFound);
      if all : bool then raise (StopIteration "All records found")
      else
        do rows <- lift_result (Query.item "rows" (Query.rows (query sq)));
        do page <- lift_result
                     (page_of py (Z.of_nat (length (articles sq))) rows);
        if max_pages sq <? page
        then raise (StopIteration "Maximum number of pages queried")
        else execute ;; yield_current
  end.

(** [next] is the Python 2 spelling. *)
Definition next `{Environment} : M (World * t) Article.t := __next__.

(** [sq.max_pages = m] *)
Definition assign_max_pages (m : Z) : M (World * t) unit :=
  set_self (set_max_pages m).

(** Pulling records until an exception ends the iteration, as [list(sq)]
    followed by one more [next(sq)] does: the records yielded and the
    exception, or no exception when [fuel] calls all yielded. *)
Fixpoint drain `{Environment} (fuel : nat) (s : World * t)
    : list Article.t * option exn * (World * t) :=
  match fuel with
  | O => ([], None, s)
  | S fuel' =>
      match __next__ s with
      | (Ok a, s') =>
          let '(l, e, s'') := drain fuel' s' in (a :: l, e, s'')
      | (Raise e, s') => ([], Some e, s')
      end
  end.


End SearchQuery.

(** ** class SearchQuery, continued: a dictionary of the caller's

    [SearchQuery(query_dict=d)] keeps [d] itself as [self._query]: the
    [setdefault] of the constructor and the [+=] of [execute] change it
    in place, for the caller and for every other query made of the same
    dictionary.  [SearchQuery.t] holds the dictionary of a query by
    value, which is what a query is whose dictionary nothing else
    changes.  Here the dictionaries live in a heap and a query holds the
    address of its own: a method runs on the query with the dictionary
    as the heap has it, and the dictionary it leaves is written back. *)

Module SharedQuery.

Definition Heap : Type := nat → Query.t.

Definition update (l : nat) (d : Query.t) (h : Heap) : Heap :=
  λ l', if decide (l' = l) then d else h l'.

Record t := mk {
  base : BaseQuery.t;
  _articles : list Article.t;
  response : option SolrResponse.t;
  max_pages : Z;
  __iter_counter : nat;
  _query : nat;                        (* the address of the dictionary *)
}.

Definition load (d : Query.t) (sq : t) : SearchQuery.t :=
  SearchQuery.mk (base sq) (_articles sq) (response sq) (max_pages sq)
    (__iter_counter sq) d.

Definition save (o : SearchQuery.t) (l : nat) : t :=
  mk (SearchQuery.base o) (SearchQuery._articles o) (SearchQuery.response o)
    (SearchQuery.max_pages o) (SearchQuery.__iter_counter o) l.

(** A method of [SearchQuery], on a query whose dictionary is in the
    heap. *)
Definition method {A} (m : M (World * SearchQuery.t) A)
    : M (World * Heap * t) A :=
  λ s, let '(res, (w, o)) := m (s.1.1, load (s.1.2 (_query s.2)) s.2) in
       (res, (w, update (_query s.2) (SearchQuery._query o) s.1.2,
              save o (_query s.2))).

(** The constructor, given the address of [query_dict]: the defaults are
    set in the caller's dictionary before the assertions are made. *)
Definition __init__ `{Environment} (query_dict : nat) (max_pages : Z)
    (h : Heap) : result t * Heap :=
  let h' :=
    update query_dict
      (SearchQuery.initial_query (Some (h query_dict))
         None None None None None None []) h in
  match SearchQuery.__init__ (Some (h query_dict))
          None None None None None None max_pages [] with
  | Ok o => (Ok (save o query_dict), h')
  | Raise e => (Raise e, h')
  end.

Definition execute `{Environment} : M (World * Heap * t) unit :=
  method SearchQuery.execute.
Definition __next__ `{Environment} : M (World * Heap * t) Article.t :=
  method SearchQuery.__next__.
Definition assign_max_pages (m : Z) : M (World * Heap * t) unit :=
  method (SearchQuery.assign_max_pages m).

End SharedQuery.

(** ** class Article, continued: fields resolved on demand

    [_get_field] and the [cached_property] fields come after [SearchQuery]
    here because they build one. *)

Module Lazy.

Definition set_raw (field : string) (v : value) (a : Article.t) : Article.t :=
  Article.mk (<[field := v]> (Article._raw a)) (Article.__dict__ a).
Definition set_attr (name : string) (v : value) (a : Article.t) : Article.t :=
  Article.mk (Article._raw a) (<[name := v]> (Article.__dict__ a)).

(** A method of an object local to the caller: the world is shared, the
    object is dropped when the method returns. *)
Definition on_local {Self Obj A} (obj : Obj) (m : M (World * Obj) A)
    : M (World * Self) A :=
  λ s, let '(r, (w, _)) := m (s.1, obj) in (r, (w, s.2)).

(** [_get_field]; [getattribute] is [__getattribute__] of the record that
    the query returns. *)
Definition _get_field `{Environment}
    (getattribute : string → M (World * Article.t) value) (field : string)
    : M (World * Article.t) value :=
  do a <- self;
  match Article.__dict__ a !! "id" with
  | Some id =>
      if is_none id
      then raise (APIResponseError "Cannot query an article without an id")
      else
        do sq <- lift_result
                   (SearchQuery.__init__ None (Some ("id:" +:+ str_format id))
                      None (Some (FlOne field)) None (Some 0) (Some 50) 3 []);
        do r <- on_local sq SearchQuery.__next__;
        do v <- on_local r (getattribute field);
        set_self (set_raw field v) ;;
        ret v
  | None => raise (APIResponseError "Cannot query an article without an id")
  end.

(** Reading the attribute [name] of a record, for a name that is no
    method of the class: the instance dictionary, else the
    [cached_property] of that name (which stores what [_get_field]
    returns in the instance dictionary), else one of the properties that
    raise, else nothing.  [depth] bounds the nesting of resolutions, as
    the interpreter's recursion limit does. *)
Fixpoint __getattribute__ `{Environment} (depth : nat) (name : string)
    : M (World * Article.t) value :=
  do a <- self;
  match Article.__dict__ a !! name with
  | Some v => ret v
  | None =>
      if bool_decide (name ∈ Article.cached_properties) then
        match depth with
        | O => raise RecursionError
        | S depth' =>
            do v <- _get_field (__getattribute__ depth') name;
            set_self (set_attr name v) ;;
            ret v
        end
      else if bool_decide (name ∈ Article.read_only)
      then raise NotImplementedError
      else raise (AttributeError name)
  end.

End Lazy.

(** ** class Article, continued: the text of a record *)

(** [bool(v)] *)
Definition truthy (v : value) : bool :=
  match v with
  | VNone => false
  | VBool b => b
  | VInt n => negb (n =? 0)
  | VStr EmptyString => false
  | VStr _ => true
  | VList [] => false
  | VList _ => true
  | VDict [] => false
  | VDict _ => true
  end.

(** [len(v)] *)
Definition py_len (v : value) : result Z :=
  match v with
  | VStr s => Ok (Z.of_nat (String.length s))
  | VList l => Ok (Z.of_nat (length l))
  | VDict d => Ok (Z.of_nat (length d))
  | _ => Raise (TypeError builtin_msg)
  end.

(** The one-character strings of a string, which is what a list takes
    from it. *)
Definition chars (s : string) : list value :=
  (λ c, VStr (String c EmptyString)) <$> String.list_ascii_of_string s.

Module Display.

(** [author += suffix].  A string gives a new string.  A list is extended
    in place with the characters of the suffix, and the list at hand is
    the one the record holds as [first_author], under its attributes and
    under [_raw] alike.  Nothing else can be added to a string. *)
Definition add_suffix (author : value) (suffix : string)
    : M (World * Article.t) value :=
  match author with
  | VStr s => ret (VStr (s +:+ suffix))
  | VList l =>
      let extended := VList (l ++ chars suffix) in
      set_self (λ a,
        Article.mk (alter (λ _, extended) "first_author" (Article._raw a))
          (<["first_author" := extended]> (Article.__dict__ a))) ;;
      ret extended
  | _ => raise (TypeError builtin_msg)
  end.

(** [__unicode__]; [depth] is the bound of the attribute reads. *)
Definition __unicode__ `{Environment} (depth : nat)
    : M (World * Article.t) string :=
  do first_author <- Lazy.__getattribute__ depth "first_author";
  let author :=
    if truthy first_author then first_author else VStr "Unknown author" in
  do authors <- Lazy.__getattribute__ depth "author";
  do author <-
    (if truthy authors then
       do authors <- Lazy.__getattribute__ depth "author";
       do n <- lift_result (py_len authors);
       if 1 <? n then add_suffix author " et al." else ret author
     else ret author);
  do year <- Lazy.__getattribute__ depth "year";
  do bibcode <- Lazy.__getattribute__ depth "bibcode";
  ret ("<" +:+ str_format author +:+ " " +:+ str_format year +:+ ", " +:+
       str_format bibcode +:+ ">").

End Display.

(** ** class MetricsResponse, class MetricsQuery *)

(** One call of [session.post(url, data=...)]. *)
Record Post := mkPost {
  post_url : string;
  post_headers : gmap string string;
  data : string;
}.

(** What the metrics classes need beyond [Environment]: the constant
    [METRICS_URL] of [ads.config], the [json] encoder and the metrics
    service. *)
Class MetricsService := {
  METRICS_URL : string;
  json_dumps : value → string;
  http_post : Post → result HTTPResponse;
}.

(** The world, with the log of the posts. *)
Record MetricsWorld := mkMetricsWorld {
  world : World;
  posts : list Post;
}.

Module MetricsResponse.

(** [response] is the class attribute [None] until an HTTP response is
    attached. *)
Record t := mk {
  _raw : string;
  metrics : value;
  response : option HTTPResponse;
}.

Definition __init__ `{Environment} (raw : string) : result t :=
  match json_loads raw with
  | None => Raise ValueError
  | Some metrics => Ok (mk raw metrics None)
  end.

Definition set_response (h : HTTPResponse) (c : t) : t :=
  mk (_raw c) (metrics c) (Some h).

Definition load_http_response `{Environment} : HTTPResponse → result t :=
  APIResponse.load_http_response __init__ set_response.

Definition get_ratelimits (c : t)
    : result (option string * option string * option string) :=
  APIResponse.get_ratelimits (response c).

Definition __unicode__ (c : t) : value := metrics c.

End MetricsResponse.

(** A constructor that may meet a name the interpreter does not know. *)
Inductive construction (A : Type) :=
  | Constructed (a : A)
  | NameError (name : string).
Arguments Constructed {A} a.
Arguments NameError {A} name.

Module MetricsQuery.

Record t := mk {
  base : BaseQuery.t;
  response : option MetricsResponse.t;
  bibcodes : value;
  json_payload : string;
}.

Definition HTTP_ENDPOINT `{MetricsService} : string := METRICS_URL.

Definition set_base (b : BaseQuery.t) (mq : t) : t :=
  mk b (response mq) (bibcodes mq) (json_payload mq).
Definition set_response (r : option MetricsResponse.t) (mq : t) : t :=
  mk (base mq) r (bibcodes mq) (json_payload mq).

(** The constructor.  [basestring] is a name of Python 2 only. *)
Definition __init__ `{Environment} `{MetricsService} (bibcodes : value)
    : construction t :=
  match py with
  | Py3 => NameError "basestring"
  | Py2 =>
      let bibcodes :=
        match bibcodes with
        | VStr _ => VList [bibcodes]
        | _ => bibcodes
        end in
      Constructed
        (mk BaseQuery.fresh None bibcodes
           (json_dumps (VDict [("bibcodes", bibcodes)])))
  end.

Definition on_base {A} (m : M (World * BaseQuery.t) A)
    : M (MetricsWorld * t) A :=
  zoom (λ s, (world s.1, base s.2))
       (λ sub s, (mkMetricsWorld sub.1 (posts s.1), set_base sub.2 s.2)) m.

Definition log_post (p : Post) : M (MetricsWorld * t) unit :=
  modify (λ s, (mkMetricsWorld (world s.1) (posts s.1 ++ [p]), s.2)).

Definition execute `{Environment} `{MetricsService}
    : M (MetricsWorld * t) MetricsResponse.t :=
  do session <- on_base BaseQuery.session;
  do mq <- gets snd;
  let post := mkPost HTTP_ENDPOINT session (json_payload mq) in
  log_post post ;;
  do http <- lift_result (http_post post);
  do r <- lift_result (MetricsResponse.load_http_response http);
  modify (λ s, (s.1, set_response (Some r) s.2)) ;;
  ret r.

End MetricsQuery.

(** ** A mock service

    The tests of the repository run against a mock Solr server
    ([MockSolrResponse]).  This one serves a fixed corpus of documents:
    a request for [rows] documents from offset [start] is answered with
    that slice of the corpus and with the size of the corpus as
    [numFound].  The body is a toy wire format, the offset and the page
    size in unary, which the mock decoder turns into the envelope; the
    one piece of JSON text it knows is the empty array. *)

Module Mock.
Section Service.
Variable corpus : list (list (string * value)).

Fixpoint unary (c : Ascii.ascii) (n : nat) (rest : string) : string :=
  match n with
  | O => rest
  | S n' => String c (unary c n' rest)
  end.

Fixpoint count_prefix (c : Ascii.ascii) (s : string) : nat :=
  match s with
  | String c' r => if Ascii.eqb c c' then S (count_prefix c r) else O
  | EmptyString => O
  end.

Fixpoint drop_prefix (c : Ascii.ascii) (s : string) : string :=
  match s with
  | String c' r => if Ascii.eqb c c' then drop_prefix c r else s
  | EmptyString => EmptyString
  end.

Definition wire (start rows : Z) : string :=
  unary "s"%char (Z.to_nat start) (unary "r"%char (Z.to_nat rows) EmptyString).

Definition envelope (start rows : nat) : value :=
  VDict [("responseHeader",
          VDict [("status", VInt 0); ("params", VDict [])]);
         ("response",
          VDict [("numFound", VInt (Z.of_nat (length corpus)));
                 ("start", VInt (Z.of_nat start));
                 ("docs", VList (VDict <$> take rows (drop start corpus)))])].

Definition loads (body : string) : option value :=
  if String.eqb body "[]" then Some (VList [])
  else Some (envelope (count_prefix "s"%char body)
               (count_prefix "r"%char (drop_prefix "s"%char body))).

Definition get (r : Request) : result HTTPResponse :=
  match Query.start (req_params r), Query.rows (req_params r) with
  | Some s, Some n => Ok (mkHTTPResponse true (wire s n) ∅)
  | _, _ => Ok (mkHTTPResponse false "bad request" ∅)
  end.

Definition format (v : value) : string :=
  match v with
  | VNone => "None"
  | VBool true => "True"
  | VBool false => "False"
  | VInt n => DecimalString.NilZero.string_of_int (Z.to_int n)
  | VStr s => s
  | _ => EmptyString
  end.

Definition env (version : PyVersion) : Environment :=
  {| py := version;
     SEARCH_URL := "https://api.adsabs.harvard.edu/v1/search/query";
     TOKEN_FILES := ["~/.ads/token"; "~/.ads/dev_key"];
     TOKEN_ENVIRON_VARS := ["ADS_API_TOKEN"; "ADS_DEV_KEY"];
     __version__ := "0.11.0";
     json_loads := loads;
     str_format := format;
     default_headers := {["Accept" := "*/*"]};
     http_get := get |}.
End Service.

(** The corpus of [test_iter]: 28 documents, of which the test names the
    bibcodes of the first two. *)
Definition bibcode_of (i : nat) : string :=
  match i with
  | 0%nat => "1971Sci...174..142S"
  | 1%nat => "2012GCN..13229...1S"
  | _ => "mock" +:+ DecimalString.NilZero.string_of_uint (Nat.to_uint i)
  end.

Definition doc (i : nat) : list (string * value) :=
  [("id", VInt (Z.of_nat i)); ("bibcode", VStr (bibcode_of i))].

Definition corpus28 : list (list (string * value)) := doc <$> seq 0 28.

(** The services of the examples: the one of [test_iter], one holding a
    single document, one holding nothing, and three that answer a query
    with a document holding only [abstract], only [doi], only [id]. *)
Definition test_iter : Environment := env corpus28 Py3.
Definition nothing : Environment := env [] Py3.
Definition abstracts : Environment :=
  env [[("abstract", VStr "We present ...")]] Py3.

(** A world with a token in the environment and nothing sent yet. *)
Definition world : World :=
  mkWorld {["ADS_DEV_KEY" := "secret"]} ∅ [] [].

End Mock.

(** A service as lenient as Solr: a request without [start] is answered
    from offset 0, one without [rows] with ten documents. *)
Module MockDefaults.

Definition get (corpus : list (list (string * value))) (r : Request)
    : result HTTPResponse :=
  Ok (mkHTTPResponse true
        (Mock.wire (default 0 (Query.start (req_params r)))
           (default 10 (Query.rows (req_params r)))) ∅).

Definition env (corpus : list (list (string * value))) (version : PyVersion)
    : Environment :=
  {| py := version;
     SEARCH_URL := "https://api.adsabs.harvard.edu/v1/search/query";
     TOKEN_FILES := ["~/.ads/token"; "~/.ads/dev_key"];
     TOKEN_ENVIRON_VARS := ["ADS_API_TOKEN"; "ADS_DEV_KEY"];
     __version__ := "0.11.0";
     json_loads := Mock.loads corpus;
     str_format := Mock.format;
     default_headers := {["Accept" := "*/*"]};
     http_get := get corpus |}.

(** A metrics service that answers every post with the empty array, and
    an encoder that writes nothing but the number of bibcodes. *)
Definition dumps (v : value) : string :=
  match v with
  | VDict [(_, VList l)] => Mock.unary "b"%char (length l) EmptyString
  | _ => EmptyString
  end.

Definition metrics : MetricsService :=
  {| METRICS_URL := "https://api.adsabs.harvard.edu/v1/metrics";
     json_dumps := dumps;
     http_post := λ _, Ok (mkHTTPResponse true "[]" ∅) |}.

Definition python2 : Environment := Mock.env Mock.corpus28 Py2.

Definition star5 : SharedQuery.Heap :=
  λ _, Query.mk (Some "star") None None None (Some 0) (Some 5).

(** The content of a token file under which the two versions differ:
    a no-break space (U+00A0, in UTF-8), the three letters [key] and a
    line feed; and what Python 2 makes of it. *)
Definition nbsp_key : string :=
  String.string_of_list_ascii
    (map Ascii.ascii_of_nat [194; 160; 107; 101; 121; 10]%nat).
Definition nbsp_key_py2 : string :=
  String.string_of_list_ascii
    (map Ascii.ascii_of_nat [194; 160; 107; 101; 121]%nat).

(** The lenient service over two documents, and a query as
    [SearchQuery(q="star", start=None, rows=5)] builds it. *)
Definition two : Environment := env [Mock.doc 0; Mock.doc 1] Py3.
Definition without_start : SearchQuery.t :=
  SearchQuery.mk BaseQuery.fresh [] None 3 0
    (Query.mk (Some "star") None None None None (Some 5)).

(** A service that tells its rate limits, in names written in three
    different ways. *)
Definition limits : Headers :=
  <["x-ratelimit-limit" := "5000"]> (
  <["X-RateLimit-Remaining" := "4999"]> (
  <["X-RATELIMIT-RESET" := "1435190400"]> ∅)).

Definition limited : Environment :=
  {| py := Py3;
     SEARCH_URL := "https://api.adsabs.harvard.edu/v1/search/query";
     TOKEN_FILES := ["~/.ads/token"; "~/.ads/dev_key"];
     TOKEN_ENVIRON_VARS := ["ADS_API_TOKEN"; "ADS_DEV_KEY"];
     __version__ := "0.11.0";
     json_loads := Mock.loads [Mock.doc 0; Mock.doc 1];
     str_format := Mock.format;
     default_headers := {["Accept" := "*/*"]};
     http_get := λ r,
       Ok (mkHTTPResponse true
             (Mock.wire (default 0 (Query.start (req_params r)))
                (default 10 (Query.rows (req_params r)))) limits) |}.

End MockDefaults.

(** ** Vocabulary of the statements *)

(** A document [Article] accepts: none of its keys is a property without a
    setter. *)
Definition wrappable (d : list (string * value)) : bool :=
  forallb (λ kv, negb (bool_decide (kv.1 ∈ Article.read_only))) d.

(** The record made of a document. *)
Definition record_of (d : list (string * value)) : Article.t :=
  Article.mk (Article.dict_of d) (Article.dict_of d).

(** The service holds [corpus] as the result set of the query: every page
    request is answered with success by an envelope whose [numFound] is
    the size of [corpus] and whose [docs] is the requested slice. *)
Definition serves `{Environment} (corpus : list (list (string * value)))
    : Prop :=
  ∀ (req : Request) (s r : Z),
    Query.start (req_params req) = Some s →
    Query.rows (req_params req) = Some r →
    0 ≤ s → 0 < r →
    ∃ h c,
      http_get req = Ok h ∧ ok h = true ∧
      SolrResponse.__init__ (text h) = Ok c ∧
      SolrResponse.numFound c = VInt (Z.of_nat (length corpus)) ∧
      SolrResponse.docs c =
        VList (VDict <$> take (Z.to_nat r) (drop (Z.to_nat s) corpus)).

(** The query [SearchQuery(q=filter, rows=r, max_pages=m)], which is
    constructed whenever [filter] is not empty and [r] is positive. *)
Definition new_query (filter : string) (r m : Z) : SearchQuery.t :=
  SearchQuery.mk BaseQuery.fresh [] None m 0
    (Query.mk (Some filter) None (Some (FlMany SearchQuery.DEFAULT_FIELDS))
       None (Some 0) (Some r)).

(** What a caller does to a query between two looks at it. *)
Inductive action :=
  | Next
  | SetMaxPages (m : Z).

(** What the caller sees of a [Next]. *)
Inductive event :=
  | Yielded (a : Article.t)
  | Stopped (e : exn).

(** Running a sequence of actions, collecting the events of the [Next]s. *)
Fixpoint run `{Environment} (acts : list action) (s : World * SearchQuery.t)
    : list event * (World * SearchQuery.t) :=
  match acts with
  | [] => ([], s)
  | Next :: rest =>
      match SearchQuery.__next__ s with
      | (Ok a, s') => let '(evs, s'') := run rest s' in (Yielded a :: evs, s'')
      | (Raise e, s') => let '(evs, s'') := run rest s' in (Stopped e :: evs, s'')
      end
  | SetMaxPages m :: rest =>
      run rest (SearchQuery.assign_max_pages m s).2
  end.

Definition yields (evs : list event) : list Article.t :=
  omap (λ ev, match ev with Yielded a => Some a | Stopped _ => None end) evs.

(** What a caller does to one of two queries made of one dictionary. *)
Inductive call :=
  | CallExecute
  | CallNext
  | CallSetMaxPages (m : Z).

(** [k] calls of [execute] in a row on a query whose dictionary is in the
    heap. *)
Fixpoint shared_execute_times `{Environment} (k : nat)
    : M (World * SharedQuery.Heap * SharedQuery.t) unit :=
  match k with
  | O => ret tt
  | S k' => SharedQuery.execute ;; shared_execute_times k'
  end.

(** Two queries made of the dictionary at one address, one after the
    other. *)
Definition two_of_one `{Environment} (l : nat) (m : Z) (h : SharedQuery.Heap)
    : result (SharedQuery.t * SharedQuery.t) * SharedQuery.Heap :=
  match SharedQuery.__init__ l m h with
  | (Ok a, h1) =>
      match SharedQuery.__init__ l m h1 with
      | (Ok b, h2) => (Ok (a, b), h2)
      | (Raise e, h2) => (Raise e, h2)
      end
  | (Raise e, h1) => (Raise e, h1)
  end.

(** Calls on the first ([true]) or the second ([false]) of two queries,
    with what each call of [__next__] gave and each exception of
    [execute]. *)
Fixpoint calls `{Environment} (cs : list (bool * call))
    (w : World) (h : SharedQuery.Heap) (a b : SharedQuery.t)
    : list (bool * event) *
      (World * SharedQuery.Heap * (SharedQuery.t * SharedQuery.t)) :=
  match cs with
  | [] => ([], (w, h, (a, b)))
  | (first, c) :: rest =>
      let sq := if first : bool then a else b in
      let '(ev, (w', h', sq')) :=
        match c with
        | CallExecute =>
            match SharedQuery.execute (w, h, sq) with
            | (Ok _, s') => ([], s')
            | (Raise e, s') => ([(first, Stopped e)], s')
            end
        | CallNext =>
            match SharedQuery.__next__ (w, h, sq) with
            | (Ok r, s') => ([(first, Yielded r)], s')
            | (Raise e, s') => ([(first, Stopped e)], s')
            end
        | CallSetMaxPages m =>
            ([], (SharedQuery.assign_max_pages m (w, h, sq)).2)
        end in
      let '(evs, s'') :=
        if first : bool then calls rest w' h' sq' b
        else calls rest w' h' a sq' in
      (ev ++ evs, s'')
  end.

(** What is seen of such calls on two queries made of the dictionary at
    [l]: what the calls gave, and the [start] that the dictionary of the
    first query holds in the end. *)
Definition seen `{Environment} (l : nat) (m : Z) (h : SharedQuery.Heap)
    (w : World) (cs : list (bool * call))
    : option (list (bool * event) * option Z) :=
  match two_of_one l m h with
  | (Ok (a, b), h') =>
      let '(evs, (_, h'', (a', _))) := calls cs w h' a b in
      Some (evs, Query.start (h'' (SharedQuery._query a')))
  | (Raise _, _) => None
  end.

(** The bibcode a record can be compared by: the attribute [bibcode], when
    the record has it and it is not [None]. *)
Definition usable_bibcode (a : Article.t) : option value :=
  match Article.__dict__ a !! "bibcode" with
  | Some VNone | None => None
  | Some v => Some v
  end.

(** [k] calls of [execute] in a row. *)
Fixpoint execute_times `{Environment} (k : nat) : M (World * SearchQuery.t) unit :=
  match k with
  | O => ret tt
  | S k' => SearchQuery.execute ;; execute_times k'
  end.

(** The error of a comparison that cannot be made. *)
Definition cannot_compare : exn :=
  TypeError "Cannot compare articles without bibcodes".

(** Two worlds that differ at most in the warnings logged. *)
Definition same_outside (w w' : World) : Prop :=
  environ w' = environ w ∧ files w' = files w ∧ requests w' = requests w.

(** The states of a query over a result set [corpus] fetched [r] at a
    time.  Before the first request nothing is held. *)
Definition unstarted (r : Z) (sq : SearchQuery.t) : Prop :=
  Query.rows (SearchQuery._query sq) = Some r ∧
  Query.start (SearchQuery._query sq) = Some 0 ∧
  SearchQuery._articles sq = [] ∧
  SearchQuery.response sq = None ∧
  SearchQuery.__iter_counter sq = 0%nat.

(** After [k] pages, with [c] records yielded: the records held are the
    first [k * r] of the result set (all of it when it is shorter), the
    next request starts where they end, and the last envelope told the
    size of the result set. *)
Definition fetched (corpus : list (list (string * value))) (r : Z)
    (k c : nat) (sq : SearchQuery.t) : Prop :=
  Query.rows (SearchQuery._query sq) = Some r ∧
  Query.start (SearchQuery._query sq) = Some (Z.of_nat k * r) ∧
  SearchQuery._articles sq = record_of <$> take (k * Z.to_nat r) corpus ∧
  (∃ resp, SearchQuery.response sq = Some resp ∧
           SolrResponse.numFound resp = VInt (Z.of_nat (length corpus))) ∧
  SearchQuery.__iter_counter sq = c ∧
  (c ≤ length (SearchQuery._articles sq))%nat ∧
  (1 ≤ k)%nat.


(** The two ends of an iteration. *)
Definition all_found : exn := StopIteration "All records found".
Definition max_pages_queried : exn :=
  StopIteration "Maximum number of pages queried".

(** The state in which the iteration ended with [e]: every record held
    was yielded, and either the result set has no more or it has. *)
Definition stopped_at (corpus : list (list (string * value))) (r : Z)
    (e : exn) (c : nat) (sq : SearchQuery.t) : Prop :=
  ∃ k, fetched corpus r k c sq ∧
       c = length (SearchQuery._articles sq) ∧
       ((e = all_found ∧ (length corpus ≤ k * Z.to_nat r)%nat) ∨
        (e = max_pages_queried ∧ (k * Z.to_nat r < length corpus)%nat)).








(** The pages an iteration fetches at most under the cap [m]: the check
    lets a page through while the number of pages held does not exceed
    [m], and the first page is fetched before any check. *)
Definition pages_cap (m : Z) : Z := Z.max m 0 + 1.

(** The records an uninterrupted iteration yields. *)
Definition yield_count (corpus : list (list (string * value))) (r m : Z) : nat :=
  Z.to_nat (Z.min (Z.of_nat (length corpus)) (r * pages_cap m)).

(** The exception that ends it. *)
Definition stop_reason (corpus : list (list (string * value))) (r m : Z) : exn :=
  if Z.of_nat (length corpus) <=? r * pages_cap m
  then all_found else max_pages_queried.

(** The parameters of the query [_get_field] sends for [field] of the
    record with identifier [id]. *)
Definition back_query `{Environment} (id : value) (field : string) : Query.t :=
  Query.mk (Some ("id:" +:+ str_format id)) None (Some (FlOne field)) None
    (Some 0) (Some 50).


(** The world after the check of the constructor of [Article], which
    warns when the keyword arguments hold no [id]. *)
Definition after_id_check (kwargs : list (string * value)) (w : World)
    : World :=
  if assoc "id" kwargs is None
  then (warn "No article id found -- on-demand attribute lookup will fail"
          w).2
  else w.

(** The names that every record has as attributes whatever it was made
    of: [_raw], the methods of the class, and the names in double
    underscores that the class and [object] define ([__class__],
    [__dict__], [__init__], ...).  [Article.setattrs] and
    [Lazy.__getattribute__] are the code for the other names, the ones a
    field of a document has. *)
Definition class_names : list string :=
  ["_raw"; "keys"; "items"; "iteritems"; "build_reference_tree";
   "build_citation_tree"; "_get_field"].

Definition ordinary_name (name : string) : bool :=
  negb (String.prefix "__" name) && bool_decide (name ∉ class_names).

(** Keyword arguments of ordinary names, in the order in which the
    dictionary of the keyword arguments is iterated. *)
Definition ordinary (kwargs : list (string * value)) : bool :=
  forallb (λ kv, ordinary_name kv.1) kwargs.

(** The names of fields: ordinary, and no property without setter. *)
Definition field_name (name : string) : bool :=
  ordinary_name name && bool_decide (name ∉ Article.read_only).

(** What a method of a query may do to the query and to the world,
    whatever the service answers: append records, send requests ([n] of
    them at most) and give warnings. *)
Definition grows (n : nat) (s s' : World * SearchQuery.t) : Prop :=
  environ s'.1 = environ s.1 ∧ files s'.1 = files s.1 ∧
  requests s.1 `prefix_of` requests s'.1 ∧
  (length (requests s'.1) ≤ length (requests s.1) + n)%nat ∧
  SearchQuery._articles s.2 `prefix_of` SearchQuery._articles s'.2 ∧
  Query.rows (SearchQuery._query s'.2) = Query.rows (SearchQuery._query s.2).

(** The [Next]s among the actions. *)
Fixpoint nexts (acts : list action) : nat :=
  match acts with
  | [] => 0
  | Next :: rest => S (nexts rest)
  | SetMaxPages _ :: rest => nexts rest
  end.




(** * Properties *)

(** ** Values *)

Lemma py_eq_str (s t : string) : py_eq (VStr s) (VStr t) = true ↔ s = t.
Proof. simpl. apply String.eqb_eq. Qed.

Lemma is_none_false_iff (v : value) : is_none v = false ↔ v ≠ VNone.
Proof. destruct v; simpl; split; congruence. Qed.

Lemma usable_bibcode_Some (a : Article.t) (x : value) :
  usable_bibcode a = Some x ↔
  Article.__dict__ a !! "bibcode" = Some x ∧ x ≠ VNone.
Proof.
  unfold usable_bibcode.
  destruct (Article.__dict__ a !! "bibcode") as [[]|]; split;
    intros; destruct_and?; simplify_eq; try done.
Qed.

Lemma usable_bibcode_None (a : Article.t) :
  usable_bibcode a = None ↔
  Article.__dict__ a !! "bibcode" = None ∨
  Article.__dict__ a !! "bibcode" = Some VNone.
Proof.
  unfold usable_bibcode.
  destruct (Article.__dict__ a !! "bibcode") as [[]|]; split;
    intros; destruct_or?; simplify_eq; auto.
Qed.

(** ** Article: comparison *)

Module ArticleFacts.

Lemma eq_usable (a b : Article.t) (x y : value) :
  usable_bibcode a = Some x → usable_bibcode b = Some y →
  Article.__eq__ a b = Ok (py_eq x y).
Proof.
  intros [Ha Hx]%usable_bibcode_Some [Hb Hy]%usable_bibcode_Some.
  unfold Article.__eq__, Article.hasattr, Article.attr. rewrite Ha, Hb.
  rewrite !bool_decide_eq_true_2 by eauto. simpl.
  apply is_none_false_iff in Hx, Hy. by rewrite Hx, Hy.
Qed.

Lemma eq_unusable (a b : Article.t) :
  usable_bibcode a = None ∨ usable_bibcode b = None →
  Article.__eq__ a b = Raise cannot_compare.
Proof.
  unfold Article.__eq__, Article.hasattr, Article.attr, cannot_compare.
  intros [[H|H]%usable_bibcode_None | [H|H]%usable_bibcode_None];
    rewrite H; simpl;
    repeat (case_bool_decide; simpl);
    repeat (destruct (is_none _); simpl); try done;
    exfalso; eauto using is_Some_None.
Qed.

(** C5.  Two records compare equal exactly when both carry a bibcode
    that is not [None] and the two bibcodes are equal as Python values;
    the answer depends on nothing but the two bibcodes; and when either
    record has no bibcode or has [None] for it, the comparison raises
    the [TypeError] instead of answering. *)
Theorem eq_iff_bibcodes_match (a b : Article.t) :
  (Article.__eq__ a b = Ok true ↔
   ∃ x y, usable_bibcode a = Some x ∧ usable_bibcode b = Some y ∧
          py_eq x y = true) ∧
  (∀ x y, usable_bibcode a = Some x → usable_bibcode b = Some y →
          Article.__eq__ a b = Ok (py_eq x y)) ∧
  (∀ a' b', Article.__dict__ a' !! "bibcode" = Article.__dict__ a !! "bibcode" →
            Article.__dict__ b' !! "bibcode" = Article.__dict__ b !! "bibcode" →
            Article.__eq__ a' b' = Article.__eq__ a b) ∧
  (usable_bibcode a = None ∨ usable_bibcode b = None →
   Article.__eq__ a b = Raise cannot_compare ∧
   ∀ r : bool, Article.__eq__ a b ≠ Ok r).
Proof.
  split_and!.
  - split.
    + intros Heq.
      destruct (usable_bibcode a) as [x|] eqn:Ha;
        [destruct (usable_bibcode b) as [y|] eqn:Hb|].
      * exists x, y. rewrite (eq_usable a b x y Ha Hb) in Heq.
        split_and!; congruence.
      * rewrite eq_unusable in Heq by auto. discriminate.
      * rewrite eq_unusable in Heq by auto. discriminate.
    + intros (x & y & Ha & Hb & Hxy).
      rewrite (eq_usable a b x y Ha Hb). by rewrite Hxy.
  - apply eq_usable.
  - intros a' b' Ha Hb.
    unfold Article.__eq__, Article.hasattr, Article.attr. by rewrite Ha, Hb.
  - intros H. rewrite eq_unusable by done. split; [done|]. discriminate.
Qed.

Lemma eq_iff_bibcodes_match_witness :
  Article.__eq__
    (record_of [("bibcode", VStr "2013A&A...552A.143S"); ("year", VInt 2013)])
    (record_of [("bibcode", VStr "2013A&A...552A.143S")]) = Ok true ∧
  Article.__eq__ (record_of []) (record_of [("bibcode", VStr "x")])
    = Raise cannot_compare.
Proof.
  split.
  - destruct (eq_iff_bibcodes_match
                (record_of [("bibcode", VStr "2013A&A...552A.143S");
                            ("year", VInt 2013)])
                (record_of [("bibcode", VStr "2013A&A...552A.143S")]))
      as ([_ H] & _).
    apply H.
    exists (VStr "2013A&A...552A.143S"), (VStr "2013A&A...552A.143S").
    split_and!; reflexivity.
  - destruct (eq_iff_bibcodes_match (record_of [])
                (record_of [("bibcode", VStr "x")])) as (_ & _ & _ & H).
    apply H. left. reflexivity.
Defined.

(** C10.  When both records carry a bibcode that is not [None],
    [__ne__] answers the negation of what [__eq__] answers, so two such
    records are unequal exactly when their bibcodes differ; when either
    lacks one, [__ne__] raises the error [__eq__] raises. *)
Theorem ne_negates_eq (a b : Article.t) :
  (∀ x y, usable_bibcode a = Some x → usable_bibcode b = Some y →
          Article.__ne__ a b = Ok (negb (py_eq x y)) ∧
          Article.__eq__ a b = Ok (py_eq x y) ∧
          (Article.__ne__ a b = Ok true ↔ py_eq x y = false)) ∧
  (usable_bibcode a = None ∨ usable_bibcode b = None →
   Article.__ne__ a b = Raise cannot_compare ∧
   Article.__eq__ a b = Raise cannot_compare).
Proof.
  split.
  - intros x y Ha Hb. unfold Article.__ne__.
    rewrite (eq_usable a b x y Ha Hb). simpl. split_and!; [done..|].
    destruct (py_eq x y); simpl; split; congruence.
  - intros H. unfold Article.__ne__. by rewrite eq_unusable.
Qed.

Lemma ne_negates_eq_witness :
  Article.__ne__ (record_of [("bibcode", VStr "Not the same")])
    (record_of [("bibcode", VStr "2013A&A...552A.143S")]) = Ok true ∧
  Article.__ne__ (record_of [("bibcode", VNone)])
    (record_of [("bibcode", VStr "x")]) = Raise cannot_compare.
Proof.
  split.
  - destruct (ne_negates_eq (record_of [("bibcode", VStr "Not the same")])
                (record_of [("bibcode", VStr "2013A&A...552A.143S")]))
      as [H _].
    destruct (H (VStr "Not the same") (VStr "2013A&A...552A.143S"))
      as (_ & _ & Hne); [reflexivity..|].
    apply Hne. reflexivity.
  - destruct (ne_negates_eq (record_of [("bibcode", VNone)])
                (record_of [("bibcode", VStr "x")])) as [_ H].
    apply H. left. reflexivity.
Defined.

End ArticleFacts.

(** ** The monad *)

Ltac munfold :=
  unfold in_world, self, set_self, warn, log_request, zoom in *;
  unfold bind, ret, raise, get, gets, modify, lift_result in *.

Ltac msimpl := munfold; simpl in *.

(** Methods are unfolded by name only. *)
Arguments Article.__init__ : simpl never.
Arguments SolrResponse.__init__ : simpl never.
Arguments SolrResponse.load_http_response : simpl never.
Arguments SolrResponse.articles : simpl never.
Arguments BaseQuery.token : simpl never.
Arguments BaseQuery.session : simpl never.
Arguments SearchQuery.execute : simpl never.
Arguments SearchQuery.__next__ : simpl never.
Arguments SearchQuery.yield_current : simpl never.
Arguments SearchQuery.page_of : simpl never.
Arguments http_get : simpl never.
Arguments json_loads : simpl never.

Lemma same_outside_refl (w : World) : same_outside w w.
Proof. by unfold same_outside. Qed.

Lemma same_outside_trans (w1 w2 w3 : World) :
  same_outside w1 w2 → same_outside w2 w3 → same_outside w1 w3.
Proof. unfold same_outside. intros (?&?&?) (?&?&?). split_and!; congruence. Qed.

Lemma warn_same_outside (msg : string) (w : World) :
  same_outside w (warn msg w).2.
Proof. by unfold same_outside. Qed.

#[local] Hint Resolve same_outside_refl warn_same_outside : core.

(** ** Responses *)

Module EnvelopeInit.
Section WithEnvironment.
Context `{Environment}.

(** What the constructor leaves in the attributes it does not read from
    the body. *)
Lemma init_attributes (raw : string) (c : SolrResponse.t) :
  SolrResponse.__init__ raw = Ok c →
  SolrResponse._articles c = None ∧
  SolrResponse._raw c = raw ∧
  ∃ v, SolrResponse.response c = SolrResponse.FromJson v.
Proof.
  unfold SolrResponse.__init__.
  destruct (json_loads raw) as [j|]; [|done].
  destruct (subscript j "responseHeader") as [hd|[]]; simpl; try done.
  destruct (subscript hd "params") as [p|[]]; simpl; try done.
  destruct (subscript j "response") as [r|[]]; simpl; try done.
  destruct (subscript r "numFound") as [n|[]]; simpl; try done.
  destruct (subscript r "docs") as [ds|[]]; simpl; try done.
  intros [= <-]. simpl. eauto.
Qed.

Lemma init_response (raw : string) (c : SolrResponse.t) :
  SolrResponse.__init__ raw = Ok c →
  match SolrResponse.response c with
  | SolrResponse.FromHTTP h => Some h
  | SolrResponse.FromJson _ => None
  end = None.
Proof. intros (_ & _ & v & ->)%init_attributes. done. Qed.

End WithEnvironment.
End EnvelopeInit.

Module ResponseFacts.
Section WithEnvironment.
Context `{Environment}.

(** C9.  [load_http_response], for whatever subclass it is called on: when
    the success flag of the HTTP response is off, it raises
    [APIResponseError] with the text of the response, whatever the
    constructor of the subclass would do with it; when the flag is on, it
    is the constructor applied to the text, whose error it lets through
    and to whose object it attaches the HTTP response.  On a
    [SolrResponse] the attribute [response] then is that HTTP response,
    every other attribute is as the constructor left it, and
    [get_ratelimits], which had nothing to read on the object the
    constructor made, reads its headers. *)
Theorem load_http_response_spec (h : HTTPResponse) :
  (∀ T (cls : string → result T) (set : HTTPResponse → T → T),
     ok h = false →
     APIResponse.load_http_response cls set h
       = Raise (APIResponseError (text h))) ∧
  (∀ T (cls : string → result T) (set : HTTPResponse → T → T),
     ok h = true →
     APIResponse.load_http_response cls set h
       = match cls (text h) with
         | Ok c => Ok (set h c)
         | Raise e => Raise e
         end) ∧
  (∀ c, ok h = true → SolrResponse.__init__ (text h) = Ok c →
     ∃ c', SolrResponse.load_http_response h = Ok c' ∧
           SolrResponse.response c' = SolrResponse.FromHTTP h ∧
           SolrResponse._raw c' = SolrResponse._raw c ∧
           SolrResponse.json c' = SolrResponse.json c ∧
           SolrResponse._articles c' = SolrResponse._articles c ∧
           SolrResponse.responseHeader c' = SolrResponse.responseHeader c ∧
           SolrResponse.params c' = SolrResponse.params c ∧
           SolrResponse.numFound c' = SolrResponse.numFound c ∧
           SolrResponse.docs c' = SolrResponse.docs c ∧
           SolrResponse.get_ratelimits c'
             = Ok (headers h !! "X-RateLimit-Limit",
                   headers h !! "X-RateLimit-Remaining",
                   headers h !! "X-RateLimit-Reset") ∧
           SolrResponse.get_ratelimits c = Raise (AttributeError "headers")).
Proof.
  split_and!.
  - intros T cls set Hok. unfold APIResponse.load_http_response.
    by rewrite Hok.
  - intros T cls set Hok. unfold APIResponse.load_http_response.
    rewrite Hok. simpl. by destruct (cls (text h)).
  - intros c Hok Hc. exists (SolrResponse.set_response h c).
    unfold SolrResponse.load_http_response, APIResponse.load_http_response.
    rewrite Hok, Hc. simpl. split_and!; try done.
    unfold SolrResponse.get_ratelimits.
    erewrite EnvelopeInit.init_response; [done|exact Hc].
Qed.

End WithEnvironment.

Lemma load_http_response_spec_witness :
  @SolrResponse.load_http_response Mock.test_iter
    (mkHTTPResponse false "Unauthorized" ∅)
    = Raise (APIResponseError "Unauthorized") ∧
  ∃ c, @SolrResponse.load_http_response Mock.test_iter
         (mkHTTPResponse true (Mock.wire 0 1) ∅) = Ok c ∧
       SolrResponse.response c
         = SolrResponse.FromHTTP (mkHTTPResponse true (Mock.wire 0 1) ∅).
Proof.
  split.
  - apply (@load_http_response_spec Mock.test_iter
             (mkHTTPResponse false "Unauthorized" ∅)).
    reflexivity.
  - destruct (@load_http_response_spec Mock.test_iter
                (mkHTTPResponse true (Mock.wire 0 1) ∅)) as (_ & _ & Hc).
    edestruct Hc as (c' & Hload & Hresp & _); [reflexivity..|].
    exists c'. by split.
Defined.

End ResponseFacts.

(** ** The envelope and its records *)

Module EnvelopeFacts.

Lemma setattrs_wrappable (d : list (string * value)) (m : gmap string value) :
  wrappable d = true →
  Article.setattrs d m = Ok (foldl (λ d kv, <[kv.1 := kv.2]> d) m d).
Proof.
  revert m. induction d as [|[k v] d IH]; intros m Hw; [done|].
  simpl in Hw. apply andb_true_iff in Hw as [Hk Hd].
  simpl. destruct (bool_decide (k ∈ Article.read_only)); [done|].
  by apply IH.
Qed.

Lemma init_wrappable (d : list (string * value)) (w : World) :
  wrappable d = true →
  ∃ w', Article.__init__ d w = (Ok (record_of d), w') ∧ same_outside w w'.
Proof.
  intros Hw. unfold Article.__init__. munfold.
  rewrite (setattrs_wrappable d ∅ Hw).
  destruct (assoc "id" d); simpl; eexists; (split; [reflexivity|done]).
Qed.

Lemma wrap_wrappable (ds : list (list (string * value))) :
  forallb wrappable ds = true →
  ∀ (w : World) (c : SolrResponse.t) (l : list Article.t),
    SolrResponse._articles c = Some l →
    ∃ w', SolrResponse.wrap (VDict <$> ds) (w, c)
          = (Ok tt, (w', SolrResponse.set_articles
                           (Some (l ++ (record_of <$> ds))) c))
          ∧ same_outside w w'.
Proof.
  induction ds as [|d ds IH]; intros Hw w c l Hl.
  - exists w. simpl. unfold ret. rewrite app_nil_r, <- Hl.
    by destruct c.
  - simpl in Hw. apply andb_true_iff in Hw as [Hd Hds].
    destruct (init_wrappable d w Hd) as (w1 & Hinit & Hw1).
    rewrite fmap_cons. simpl. munfold. simpl. rewrite Hinit. simpl.
    rewrite Hl. simpl.
    edestruct (IH Hds w1
      (SolrResponse.set_articles (Some (l ++ [record_of d])) c))
      as (w2 & Hwrap & Hw2); [done|].
    rewrite Hwrap. exists w2. split.
    + by rewrite <- app_assoc.
    + by eapply same_outside_trans.
Qed.

Lemma articles_wrappable (ds : list (list (string * value)))
    (w : World) (c : SolrResponse.t) :
  SolrResponse._articles c = None →
  SolrResponse.docs c = VList (VDict <$> ds) →
  forallb wrappable ds = true →
  ∃ w', SolrResponse.articles (w, c)
        = (Ok (record_of <$> ds),
           (w', SolrResponse.set_articles (Some (record_of <$> ds)) c))
        ∧ same_outside w w'.
Proof.
  intros Hnone Hdocs Hw. unfold SolrResponse.articles. munfold. simpl.
  rewrite Hnone, Hdocs. simpl.
  edestruct (wrap_wrappable ds Hw w
    (SolrResponse.set_articles (Some []) c) []) as (w' & Hwrap & Hw');
    [done|].
  rewrite Hwrap. simpl. exists w'. by split.
Qed.


Section WithEnvironment.
Context `{Environment}.



End WithEnvironment.



End EnvelopeFacts.

(** ** Credentials *)

Module TokenFacts.

Lemma first_environ_Some (environ : gmap string string)
    (pre post : list string) (name v : string) :
  Forall (λ n, environ !! n = None) pre →
  environ !! name = Some v →
  BaseQuery.first_environ environ (pre ++ name :: post) = Some v.
Proof.
  intros Hpre Hname. induction Hpre as [|n pre Hn _ IH]; simpl.
  - by rewrite Hname.
  - by rewrite Hn.
Qed.

Lemma first_environ_None (environ : gmap string string) (vars : list string) :
  Forall (λ n, environ !! n = None) vars →
  BaseQuery.first_environ environ vars = None.
Proof. induction 1 as [|n vars Hn _ IH]; simpl; [done|by rewrite Hn]. Qed.

Lemma first_file_Some (v : PyVersion) (files : gmap string string)
    (pre post : list string) (f content : string) :
  Forall (λ p, files !! p = None) pre →
  files !! f = Some content →
  BaseQuery.first_file v files (pre ++ f :: post)
    = Some (BaseQuery.strip v content).
Proof.
  intros Hpre Hf. induction Hpre as [|n pre Hn _ IH]; simpl.
  - by rewrite Hf.
  - by rewrite Hn.
Qed.

Lemma first_file_None (v : PyVersion) (files : gmap string string)
    (paths : list string) :
  Forall (λ p, files !! p = None) paths →
  BaseQuery.first_file v files paths = None.
Proof. induction 1 as [|n paths Hn _ IH]; simpl; [done|by rewrite Hn]. Qed.

Section WithEnvironment.
Context `{Environment}.

Lemma token_set (w : World) (b : BaseQuery.t) (t : string) :
  BaseQuery._token b = Some t →
  BaseQuery.token (w, b) = (Ok (Some t), (w, b)).
Proof. intros Ht. unfold BaseQuery.token. munfold. simpl. by rewrite Ht. Qed.

(** Whatever happens, [token] returns, and it changes nothing outside but
    the log of warnings and nothing of [self] but [_token]. *)
Lemma token_total (w : World) (b : BaseQuery.t) :
  ∃ r w' t, BaseQuery.token (w, b) = (Ok r, (w', BaseQuery.set_token t b)) ∧
            same_outside w w'.
Proof.
  unfold BaseQuery.token. munfold. simpl.
  destruct (BaseQuery._token b) as [t|] eqn:Ht.
  - exists (Some t), w, (Some t). rewrite <- Ht. by destruct b.
  - destruct (BaseQuery.first_environ _ _) as [v|].
    { by exists (Some v), w, (Some v). }
    destruct (BaseQuery.first_file _ _ _) as [v|].
    { by exists (Some v), w, (Some v). }
    simpl. rewrite Ht. eexists None, _, None. rewrite <- Ht.
    split; [by destruct b|done].
Qed.

(** C7, as the code has it.  A token already held, found earlier or set
    by the caller, is returned without looking anywhere and without
    changing anything.  Otherwise the first environment variable of the
    list that is set gives the token, also when its value is empty;
    failing that, the first file of the list that opens gives its
    content without the whitespace at its two ends, also when nothing is
    left of it; the token found is stored, so every later access returns
    it in any world.  When no variable is set and no file opens, a
    warning is logged and the answer is [None], and nothing is stored.
    The files are text files, and the whitespace is that of [str.strip]
    of the interpreter at hand: the six ASCII blanks of a Python 2 byte
    string, every Unicode space of a Python 3 string. *)
Theorem token_resolution (w : World) (b : BaseQuery.t) :
  (∀ t, BaseQuery._token b = Some t →
        BaseQuery.token (w, b) = (Ok (Some t), (w, b))) ∧
  (∀ t w', BaseQuery.token (w', (BaseQuery.token_setter (Some t) (w, b)).2.2)
           = (Ok (Some t), (w', BaseQuery.set_token (Some t) b))) ∧
  (∀ pre name post v,
     BaseQuery._token b = None →
     TOKEN_ENVIRON_VARS = pre ++ name :: post →
     Forall (λ n, environ w !! n = None) pre →
     environ w !! name = Some v →
     BaseQuery.token (w, b)
       = (Ok (Some v), (w, BaseQuery.set_token (Some v) b))) ∧
  (∀ pre f post content,
     BaseQuery._token b = None →
     Forall (λ n, environ w !! n = None) TOKEN_ENVIRON_VARS →
     TOKEN_FILES = pre ++ f :: post →
     Forall (λ p, files w !! p = None) pre →
     files w !! f = Some content →
     BaseQuery.token (w, b)
       = (Ok (Some (BaseQuery.strip py content)),
          (w, BaseQuery.set_token (Some (BaseQuery.strip py content)) b))) ∧
  (BaseQuery._token b = None →
   Forall (λ n, environ w !! n = None) TOKEN_ENVIRON_VARS →
   Forall (λ p, files w !! p = None) TOKEN_FILES →
   BaseQuery.token (w, b) = (Ok None, ((warn "No token found" w).2, b))) ∧
  (∀ v s, BaseQuery.token (w, b) = (Ok (Some v), s) →
          ∀ w', BaseQuery.token (w', s.2) = (Ok (Some v), (w', s.2))).
Proof.
  split_and!.
  - intros t. apply token_set.
  - intros t w'. by apply token_set.
  - intros pre name post v Ht Hvars Hpre Hname.
    unfold BaseQuery.token. munfold. simpl. rewrite Ht, Hvars.
    by rewrite (first_environ_Some _ pre post name v).
  - intros pre f post content Ht Hvars Hfiles Hpre Hf.
    unfold BaseQuery.token. munfold. simpl. rewrite Ht, Hfiles.
    rewrite first_environ_None by done.
    by rewrite (first_file_Some _ _ pre post f content).
  - intros Ht Hvars Hfiles.
    unfold BaseQuery.token. munfold. simpl. rewrite Ht.
    rewrite first_environ_None, first_file_None by done.
    simpl. by rewrite Ht.
  - intros v s Htok w'.
    destruct (BaseQuery._token b) as [t|] eqn:Ht.
    + rewrite (token_set w b t Ht) in Htok. simplify_eq. by apply token_set.
    + revert Htok. unfold BaseQuery.token at 1. munfold. simpl. rewrite Ht.
      destruct (BaseQuery.first_environ _ _) as [v1|].
      { intros; simplify_eq. by apply token_set. }
      destruct (BaseQuery.first_file _ _ _) as [v2|].
      { intros; simplify_eq. by apply token_set. }
      simpl. rewrite Ht. intros; simplify_eq.
Qed.

End WithEnvironment.

Lemma token_resolution_witness :
  @BaseQuery.token Mock.nothing (Mock.world, BaseQuery.fresh)
    = (Ok (Some "secret"),
       (Mock.world, BaseQuery.set_token (Some "secret") BaseQuery.fresh)) ∧
  (@BaseQuery.token Mock.nothing
     (mkWorld ∅ {["~/.ads/dev_key" := "  key "]} [] [], BaseQuery.fresh)).1
    = Ok (Some "key") ∧
  @BaseQuery.token Mock.nothing (mkWorld ∅ ∅ [] [], BaseQuery.fresh)
    = (Ok None, (mkWorld ∅ ∅ [] ["No token found"], BaseQuery.fresh)) ∧
  (@BaseQuery.token Mock.nothing
     (mkWorld ∅ {["~/.ads/token" := MockDefaults.nbsp_key]} [] [],
      BaseQuery.fresh)).1
    = Ok (Some "key") ∧
  (@BaseQuery.token MockDefaults.python2
     (mkWorld ∅ {["~/.ads/token" := MockDefaults.nbsp_key]} [] [],
      BaseQuery.fresh)).1
    = Ok (Some MockDefaults.nbsp_key_py2).
Proof.
  split_and!.
  - destruct (@token_resolution Mock.nothing Mock.world BaseQuery.fresh)
      as (_ & _ & Henv & _).
    apply (Henv ["ADS_API_TOKEN"] "ADS_DEV_KEY" []); try reflexivity.
    constructor; [reflexivity|constructor].
  - destruct (@token_resolution Mock.nothing
                (mkWorld ∅ {["~/.ads/dev_key" := "  key "]} [] [])
                BaseQuery.fresh) as (_ & _ & _ & Hfile & _).
    rewrite (Hfile ["~/.ads/token"] "~/.ads/dev_key" [] "  key ");
      try reflexivity.
    + repeat constructor.
    + repeat constructor.
  - destruct (@token_resolution Mock.nothing (mkWorld ∅ ∅ [] []) BaseQuery.fresh)
      as (_ & _ & _ & _ & Hnone & _).
    apply Hnone; [reflexivity|repeat constructor..].
  - destruct (@token_resolution Mock.nothing
                (mkWorld ∅ {["~/.ads/token" := MockDefaults.nbsp_key]} [] [])
                BaseQuery.fresh) as (_ & _ & _ & Hfile & _).
    rewrite (Hfile [] "~/.ads/token" ["~/.ads/dev_key"]
               MockDefaults.nbsp_key);
      try reflexivity.
    + repeat constructor.
    + constructor.
  - destruct (@token_resolution MockDefaults.python2
                (mkWorld ∅ {["~/.ads/token" := MockDefaults.nbsp_key]} [] [])
                BaseQuery.fresh) as (_ & _ & _ & Hfile & _).
    rewrite (Hfile [] "~/.ads/token" ["~/.ads/dev_key"]
               MockDefaults.nbsp_key);
      try reflexivity.
    + repeat constructor.
    + constructor.
Defined.

(** C7, the counterexample: with the first variable of the list set to the
    empty string and the second to a token, the empty string is the token;
    with no variable set, the first file holding only blanks and the
    second a token, the empty string is the token again; and an access
    that found nothing stores nothing, so that an access made after a
    variable was set finds the token. *)
Lemma empty_value_wins :
  (@BaseQuery.token Mock.nothing
     (mkWorld {["ADS_API_TOKEN" := EmptyString; "ADS_DEV_KEY" := "secret"]}
        ∅ [] [],
      BaseQuery.fresh)).1 = Ok (Some EmptyString) ∧
  (@BaseQuery.token Mock.nothing
     (mkWorld ∅ {["~/.ads/token" := "  "; "~/.ads/dev_key" := "secret"]} [] [],
      BaseQuery.fresh)).1 = Ok (Some EmptyString) ∧
  (@BaseQuery.token Mock.nothing (mkWorld ∅ ∅ [] [], BaseQuery.fresh)).1
    = Ok None ∧
  (@BaseQuery.token Mock.nothing
     (Mock.world,
      (@BaseQuery.token Mock.nothing
         (mkWorld ∅ ∅ [] [], BaseQuery.fresh)).2.2)).1 = Ok (Some "secret").
Proof. split_and!; reflexivity. Qed.

End TokenFacts.

(** ** Construction of a query *)

Module ConstructorFacts.
Section WithEnvironment.
Context `{Environment}.

(** [new_query] is what the constructor makes of a filter text, a page
    size and a cap. *)
Lemma new_query_constructed (filter : string) (r m : Z) :
  filter ≠ EmptyString → 0 < r →
  SearchQuery.__init__ None (Some filter) None
    (Some (FlMany SearchQuery.DEFAULT_FIELDS)) None (Some 0) (Some r) m []
  = Ok (new_query filter r m).
Proof.
  intros Hq Hr. unfold SearchQuery.__init__. simpl.
  destruct (Z.ltb_spec 0 r); [|lia]. simpl.
  by destruct filter.
Qed.

(** C8.  Constructing a query succeeds exactly when the dictionary it
    builds has [rows] greater than 0 and a [q] that is not empty, and the
    query made holds that dictionary; otherwise the constructor raises:
    the assertion on [rows] when [rows] is an integer not above 0 (or,
    under Python 2, missing; Python 3 raises a [TypeError] for a missing
    [rows]), else the assertion on [q]. *)
Theorem init_requires_rows_and_q (query_dict : option Query.t)
    (q fq : option string) (fl : option fl_param) (sort : option string)
    (start rows : option Z) (max_pages : Z) (kwargs : list (string * string)) :
  let d := SearchQuery.initial_query query_dict q fq fl sort start rows kwargs in
  let made := SearchQuery.__init__ query_dict q fq fl sort start rows
                max_pages kwargs in
  ((∃ r s, Query.rows d = Some r ∧ 0 < r ∧
           Query.q d = Some s ∧ s ≠ EmptyString) ↔ ∃ sq, made = Ok sq) ∧
  (∀ sq, made = Ok sq →
         sq = SearchQuery.mk BaseQuery.fresh [] None max_pages 0 d ∧
         ∃ r s, Query.rows (SearchQuery._query sq) = Some r ∧ 0 < r ∧
                Query.q (SearchQuery._query sq) = Some s ∧ s ≠ EmptyString) ∧
  (∀ r, Query.rows d = Some r → r ≤ 0 →
        made = Raise (AssertionError "rows must be greater than 0")) ∧
  (Query.rows d = None →
   made = Raise match py with
                | Py2 => AssertionError "rows must be greater than 0"
                | Py3 => TypeError builtin_msg
                end) ∧
  (∀ r, Query.rows d = Some r → 0 < r →
        Query.q d = None ∨ Query.q d = Some EmptyString →
        made = Raise (AssertionError "q must not be empty")).
Proof.
  intros d made. subst made. unfold SearchQuery.__init__. fold d.
  destruct (Query.rows d) as [r|] eqn:Hr.
  - destruct (Z.ltb_spec 0 r) as [Hpos|Hneg].
    + destruct (Query.q d) as [[|c t]|] eqn:Hq; simpl; split_and!;
        try (split; [intros (?&?&?&?&?&?)|intros [? ?]]; simplify_eq);
        try (intros; simplify_eq; try lia; done);
        try (intros; destruct_or?; simplify_eq; done).
      * by eexists.
      * exists r, (String c t). by split_and!.
      * intros sq ?. simplify_eq. split; [done|]. simpl. rewrite Hr, Hq.
        exists r, (String c t). by split_and!.
    + simpl; split_and!;
        try (split; [intros (?&?&?&?&?&?)|intros [? ?]]; simplify_eq; lia);
        try (intros; simplify_eq; try lia; done).
  - destruct py; simpl; split_and!;
      try (split; [intros (?&?&?&?&?&?)|intros [? ?]]; simplify_eq);
      try (intros; simplify_eq; done).
Qed.

End WithEnvironment.

Lemma init_requires_rows_and_q_witness :
  (∃ sq, @SearchQuery.__init__ Mock.nothing None (Some "unittest") None
           (Some (FlMany SearchQuery.DEFAULT_FIELDS)) None (Some 0) (Some 1)
           20 [] = Ok sq) ∧
  @SearchQuery.__init__ Mock.nothing None (Some "unittest") None None None (Some 0)
    (Some 0) 3 [] = Raise (AssertionError "rows must be greater than 0") ∧
  @SearchQuery.__init__ Mock.nothing None None None None None (Some 0)
    (Some 50) 3 [] = Raise (AssertionError "q must not be empty").
Proof.
  split_and!.
  - apply (@init_requires_rows_and_q Mock.nothing None (Some "unittest") None
             (Some (FlMany SearchQuery.DEFAULT_FIELDS)) None (Some 0) (Some 1)
             20 []).
    exists 1, "unittest". split_and!; [reflexivity|lia|reflexivity|discriminate].
  - destruct (@init_requires_rows_and_q Mock.nothing None (Some "unittest") None None
                None (Some 0) (Some 0) 3 []) as (_ & _ & Hrows & _).
    apply (Hrows 0); [reflexivity|lia].
  - destruct (@init_requires_rows_and_q Mock.nothing None None None None
                None (Some 0) (Some 50) 3 []) as (_ & _ & _ & _ & Hq).
    apply (Hq 50); [reflexivity|lia|right; reflexivity].
Defined.

End ConstructorFacts.

(** ** Fetching pages *)

Module ExecuteFacts.
Section WithEnvironment.
Context `{Environment}.

(** The session is always there, and getting it touches neither the query
    parameters nor the records nor the requests sent. *)
Lemma session_total (w : World) (b : BaseQuery.t) :
  ∃ hd w' b', BaseQuery.session (w, b) = (Ok hd, (w', b')) ∧
              same_outside w w'.
Proof.
  unfold BaseQuery.session. munfold. simpl.
  destruct (BaseQuery._session b) as [hd|] eqn:Hs.
  - by exists hd, w, b.
  - destruct (TokenFacts.token_total w
                (BaseQuery.set_session (Some default_headers) b))
      as (r & w' & t & Htok & Hw').
    cbn [fst snd]. rewrite Htok. simpl. by do 3 eexists.
Qed.

(** The request [execute] sends from a state. *)
Lemma execute_Ok (s s' : World * SearchQuery.t) :
  SearchQuery.execute s = (Ok tt, s') →
  ∃ st r,
    Query.start (SearchQuery._query s.2) = Some st ∧
    Query.rows (SearchQuery._query s.2) = Some r ∧
    SearchQuery._query s'.2
      = Query.set_start (st + r) (SearchQuery._query s.2) ∧
    SearchQuery.max_pages s'.2 = SearchQuery.max_pages s.2 ∧
    SearchQuery.__iter_counter s'.2 = SearchQuery.__iter_counter s.2.
Proof.
  destruct s as [w sq].
  unfold SearchQuery.execute. munfold.
  unfold SearchQuery.on_base, SearchQuery.on_response, zoom. simpl.
  destruct (session_total w (SearchQuery.base sq)) as (hd & w1 & b1 & Hs & _).
  rewrite Hs. simpl.
  destruct (http_get _) as [h|]; [|done].
  destruct (SolrResponse.load_http_response h) as [c|]; [|done].
  destruct (SolrResponse.articles _) as [[arts|e] [w2 c2]]; [|done].
  simpl.
  destruct (Query.start (SearchQuery._query sq)) as [st|]; [|done].
  destruct (Query.rows (SearchQuery._query sq)) as [r|]; [|done].
  simpl. intros; simplify_eq. by exists st, r.
Qed.

Lemma execute_times_Ok (k : nat) :
  ∀ (s s' : World * SearchQuery.t) (st r : Z),
    Query.start (SearchQuery._query s.2) = Some st →
    Query.rows (SearchQuery._query s.2) = Some r →
    execute_times k s = (Ok tt, s') →
    Query.start (SearchQuery._query s'.2) = Some (st + Z.of_nat k * r) ∧
    Query.rows (SearchQuery._query s'.2) = Some r.
Proof.
  induction k as [|k IH]; intros s s' st r Hst Hr Hrun.
  - simpl in Hrun. unfold ret in Hrun. simplify_eq.
    split; [|done]. rewrite Hst. f_equal. lia.
  - simpl in Hrun. unfold bind in Hrun.
    destruct (SearchQuery.execute s) as [[[]|e] s1] eqn:Hex; [|done].
    apply execute_Ok in Hex as (st' & r' & Hst' & Hr' & Hq & _).
    simplify_eq.
    destruct (IH s1 s' (st + r) r) as [Hst1 Hr1]; [by rewrite Hq..|done|].
    split; [|done]. rewrite Hst1. f_equal. lia.
Qed.

(** The same for a query whose dictionary is in the heap, when nothing
    else changes the dictionary between the calls. *)
Lemma shared_execute_times_Ok (k : nat) :
  ∀ (w : World) (h : SharedQuery.Heap) (sq : SharedQuery.t)
    (s' : World * SharedQuery.Heap * SharedQuery.t) (st r : Z),
    Query.start (h (SharedQuery._query sq)) = Some st →
    Query.rows (h (SharedQuery._query sq)) = Some r →
    shared_execute_times k (w, h, sq) = (Ok tt, s') →
    Query.start (s'.1.2 (SharedQuery._query sq))
    = Some (st + Z.of_nat k * r) ∧
    Query.rows (s'.1.2 (SharedQuery._query sq)) = Some r ∧
    SharedQuery._query s'.2 = SharedQuery._query sq ∧
    ∀ l, l ≠ SharedQuery._query sq → s'.1.2 l = h l.
Proof.
  induction k as [|k IH]; intros w h sq s' st r Hst Hr Hrun.
  - simpl in Hrun. unfold ret in Hrun. simplify_eq. simpl.
    split_and!; try done. rewrite Hst. f_equal. lia.
  - simpl in Hrun. unfold bind, SharedQuery.execute, SharedQuery.method in Hrun.
    simpl in Hrun.
    destruct (SearchQuery.execute _) as [[[]|e] [w1 o1]] eqn:Hex; [|done].
    apply execute_Ok in Hex as (st' & r' & Hst' & Hr' & Hq & _).
    simpl in Hst', Hr', Hq. simplify_eq.
    destruct (IH w1
                (SharedQuery.update (SharedQuery._query sq)
                   (SearchQuery._query o1) h)
                (SharedQuery.save o1 (SharedQuery._query sq))
                s' (st + r) r) as (Hst1 & Hr1 & Hl1 & Hrest);
      [| |exact Hrun|].
    { simpl. unfold SharedQuery.update. rewrite decide_True by done.
      by rewrite Hq. }
    { simpl. unfold SharedQuery.update. rewrite decide_True by done.
      by rewrite Hq. }
    simpl in *. split_and!; try done.
    + rewrite Hst1. f_equal. lia.
    + intros l Hl. rewrite (Hrest l Hl).
      unfold SharedQuery.update. by rewrite decide_False.
Qed.

(** C3, as the code has it.  Each successful [execute] adds [rows] to
    [start] in the dictionary of the query and leaves [rows] alone.  So a
    query that starts at offset 0 has [start] equal to [k * rows] after
    [k] successful calls, which grows with every call since [rows] is
    positive, as long as nothing but these calls changes its dictionary:
    this is so for a query that has its dictionary to itself, as one
    built from keyword parameters has, and for a query built from a
    dictionary of the caller's as long as the [k] calls follow one
    another; the other dictionaries of the heap are left alone. *)
Theorem start_after_executes (k : nat) (r : Z) :
  (∀ s s' : World * SearchQuery.t,
     Query.start (SearchQuery._query s.2) = Some 0 →
     Query.rows (SearchQuery._query s.2) = Some r →
     execute_times k s = (Ok tt, s') →
     Query.start (SearchQuery._query s'.2) = Some (Z.of_nat k * r) ∧
     Query.rows (SearchQuery._query s'.2) = Some r ∧
     ∀ s'', SearchQuery.execute s' = (Ok tt, s'') →
            Query.start (SearchQuery._query s''.2)
            = Some (Z.of_nat k * r + r) ∧
            (0 < r → Z.of_nat k * r < Z.of_nat k * r + r)) ∧
  (∀ (l : nat) (m : Z) (w : World) (h h0 : SharedQuery.Heap)
     (a : SharedQuery.t) (s' : World * SharedQuery.Heap * SharedQuery.t),
     SharedQuery.__init__ l m h = (Ok a, h0) →
     Query.start (h0 l) = Some 0 →
     Query.rows (h0 l) = Some r →
     shared_execute_times k (w, h0, a) = (Ok tt, s') →
     SharedQuery._query s'.2 = l ∧
     Query.start (s'.1.2 l) = Some (Z.of_nat k * r) ∧
     Query.rows (s'.1.2 l) = Some r ∧
     ∀ l', l' ≠ l → s'.1.2 l' = h0 l').
Proof.
  split.
  - intros s s' Hst Hr Hrun.
    destruct (execute_times_Ok k s s' 0 r Hst Hr Hrun) as [Hst' Hr'].
    rewrite Z.add_0_l in Hst'. split_and!; [done..|].
    intros s'' Hex.
    apply execute_Ok in Hex as (st1 & r1 & Hst1 & Hr1 & Hq & _).
    simplify_eq. rewrite Hq. simpl. split; [done|lia].
  - intros l m w h h0 a s' Hinit Hst Hr Hrun.
    assert (SharedQuery._query a = l) as Hl.
    { unfold SharedQuery.__init__ in Hinit.
      destruct (SearchQuery.__init__ _ _ _ _ _ _ _ _ _); by simplify_eq. }
    subst l.
    destruct (shared_execute_times_Ok k w h0 a s' 0 r Hst Hr Hrun)
      as (Hst' & Hr' & Hl' & Hrest).
    rewrite Z.add_0_l in Hst'. by split_and!.
Qed.

End WithEnvironment.

Lemma start_after_executes_witness :
  Query.start (SearchQuery._query
    (@execute_times Mock.test_iter 3
       (Mock.world, new_query "unittest" 5 20)).2.2)
  = Some (3 * 5).
Proof.
  assert ((@execute_times Mock.test_iter 3
             (Mock.world, new_query "unittest" 5 20)).1 = Ok tt) as Hrun
    by (vm_compute; reflexivity).
  destruct (@execute_times Mock.test_iter 3
              (Mock.world, new_query "unittest" 5 20)) as [res s'] eqn:Hex.
  simpl in Hrun. subst res.
  destruct (@start_after_executes Mock.test_iter 3 5) as [Hown _].
  eapply (Hown (Mock.world, new_query "unittest" 5 20));
    [reflexivity|reflexivity|exact Hex].
Defined.

(** C3, the counterexample: two queries are made of one dictionary that
    holds [start = 0] and [rows = 5]; the second executes, then the
    first.  Both calls succeed, and after this one successful call of
    its own the first query has [start = 10], twice its [rows]. *)
Lemma shared_dictionary_start :
  Query.start (MockDefaults.star5 0%nat) = Some 0 ∧
  Query.rows (MockDefaults.star5 0%nat) = Some 5 ∧
  @seen Mock.test_iter 0 3 MockDefaults.star5 Mock.world
    [(false, CallExecute); (true, CallExecute)]
  = Some ([], Some (2 * 5)).
Proof. split_and!; [reflexivity..|]. vm_compute. reflexivity. Qed.

End ExecuteFacts.

(** ** Iteration *)

Module IterationFacts.

Lemma forallb_take_drop {A} (f : A → bool) (l : list A) (n m : nat) :
  forallb f l = true → forallb f (take n (drop m l)) = true.
Proof.
  revert n m. induction l as [|x l IH]; intros n m Hl.
  - by destruct n, m.
  - simpl in Hl. apply andb_true_iff in Hl as [Hx Hl].
    destruct m as [|m]; [|by apply IH].
    destruct n as [|n]; [done|].
    simpl. rewrite Hx. simpl. apply (IH n 0%nat Hl).
Qed.

Section WithEnvironment.
Context `{Environment}.

Section Served.
Variable corpus : list (list (string * value)).
Hypothesis Hserves : serves corpus.
Hypothesis Hwrappable : forallb wrappable corpus = true.

(** What a page request does to a query, when the service answers. *)
Lemma execute_serves (w : World) (sq : SearchQuery.t) (st r : Z) :
  Query.start (SearchQuery._query sq) = Some st →
  Query.rows (SearchQuery._query sq) = Some r →
  0 ≤ st → 0 < r →
  ∃ w' b' c,
    SearchQuery.execute (w, sq)
      = (Ok tt,
         (w', SearchQuery.mk b'
                (SearchQuery._articles sq ++
                 (record_of <$> take (Z.to_nat r) (drop (Z.to_nat st) corpus)))
                (Some c) (SearchQuery.max_pages sq)
                (SearchQuery.__iter_counter sq)
                (Query.set_start (st + r) (SearchQuery._query sq)))) ∧
    SolrResponse.numFound c = VInt (Z.of_nat (length corpus)) ∧
    ∃ hd, requests w'
          = requests w ++ [mkRequest SearchQuery.HTTP_ENDPOINT hd
                             (SearchQuery._query sq)].
Proof.
  intros Hst Hr Hst0 Hr0.
  unfold SearchQuery.execute. munfold.
  unfold SearchQuery.on_base, SearchQuery.on_response, zoom. simpl.
  destruct (ExecuteFacts.session_total w (SearchQuery.base sq))
    as (hd & w1 & b1 & Hs & Hw1).
  rewrite Hs. simpl.
  destruct (Hserves (mkRequest SearchQuery.HTTP_ENDPOINT hd
                       (SearchQuery._query sq)) st r)
    as (h & c & Hget & Hok & Hinit & Hnum & Hdocs); [done..|].
  unfold SearchQuery.query. rewrite Hget.
  unfold SolrResponse.load_http_response, APIResponse.load_http_response.
  rewrite Hok, Hinit. simpl.
  edestruct (EnvelopeFacts.articles_wrappable
               (take (Z.to_nat r) (drop (Z.to_nat st) corpus))
               (mkWorld (environ w1) (files w1)
                  (requests w1 ++ [mkRequest SearchQuery.HTTP_ENDPOINT hd
                                     (SearchQuery._query sq)])
                  (warnings w1))
               (SolrResponse.set_response h c))
    as (w2 & Harts & Hw2).
  { simpl. by eapply EnvelopeInit.init_attributes. }
  { done. }
  { by apply forallb_take_drop. }
  rewrite Harts. simpl. rewrite Hst, Hr. simpl.
  do 3 eexists. split; [reflexivity|]. split; [done|].
  destruct Hw1 as (_ & _ & Hreq1), Hw2 as (_ & _ & Hreq2).
  simpl in Hreq2. exists hd. by rewrite Hreq2, Hreq1.
Qed.

Variable r : Z.
Hypothesis Hr : 0 < r.

Lemma page_of_pages (k : nat) :
  SearchQuery.page_of py (Z.of_nat k * r) r = Ok (Z.of_nat k).
Proof.
  unfold SearchQuery.page_of.
  destruct (Z.eqb_spec r 0) as [|_]; [lia|].
  destruct py; f_equal.
  - apply Z.div_mul. lia.
  - rewrite <- Z.mul_opp_l, Z.div_mul by lia. lia.
Qed.

Lemma held_length (k c : nat) (sq : SearchQuery.t) :
  fetched corpus r k c sq →
  length (SearchQuery._articles sq)
    = ((k * Z.to_nat r) `min` length corpus)%nat.
Proof. intros (_ & _ & -> & _). by rewrite length_fmap, length_take. Qed.

Lemma held_lookup (k c : nat) (sq : SearchQuery.t) (i : nat) :
  fetched corpus r k c sq →
  (i < length (SearchQuery._articles sq))%nat →
  ∃ d, corpus !! i = Some d ∧
       SearchQuery._articles sq !! i = Some (record_of d).
Proof.
  intros Hf Hi. pose proof (held_length k c sq Hf) as Hlen.
  destruct Hf as (_ & _ & Harts & _).
  destruct (lookup_lt_is_Some_2 corpus i) as [d Hd]; [lia|].
  exists d. split; [done|].
  rewrite Harts, list_lookup_fmap, lookup_take_lt by lia. by rewrite Hd.
Qed.

(** A record already held is yielded without a request. *)
Lemma next_held (w : World) (k c : nat) (sq : SearchQuery.t) :
  fetched corpus r k c sq →
  (c < length (SearchQuery._articles sq))%nat →
  ∃ d, corpus !! c = Some d ∧
       SearchQuery.__next__ (w, sq)
         = (Ok (record_of d), (w, SearchQuery.set_iter_counter (S c) sq)) ∧
       fetched corpus r k (S c) (SearchQuery.set_iter_counter (S c) sq).
Proof.
  intros Hf Hc. destruct (held_lookup k c sq c Hf Hc) as (d & Hd & Hart).
  exists d. split; [done|].
  destruct Hf as (Hrows & Hstart & Harts & (resp & Hresp & Hnum) & Hcnt & Hle & Hk).
  split.
  - unfold SearchQuery.__next__, SearchQuery.yield_current. munfold.
    cbn [fst snd]. rewrite Hresp. cbn [fst snd].
    rewrite Hcnt, Hart. cbn [fst snd]. by rewrite Hcnt, Hart.
  - unfold fetched. simpl. split_and!; try done; eauto.
Qed.

(** The three checks of the handler, on a query that yielded every record
    it holds. *)
Lemma next_exhausted (w : World) (k c : nat) (sq : SearchQuery.t) :
  fetched corpus r k c sq →
  c = length (SearchQuery._articles sq) →
  SearchQuery.__next__ (w, sq)
    = if decide (length corpus ≤ k * Z.to_nat r)%nat
      then (Raise all_found, (w, sq))
      else if decide (SearchQuery.max_pages sq < Z.of_nat k)
      then (Raise max_pages_queried, (w, sq))
      else (SearchQuery.execute ;; SearchQuery.yield_current) (w, sq).
Proof.
  intros Hf Hc. pose proof (held_length k c sq Hf) as Hlen.
  destruct Hf as (Hrows & Hstart & Harts & (resp & Hresp & Hnum) & Hcnt & Hle & Hk).
  unfold SearchQuery.__next__, SearchQuery.on_response. munfold.
  cbn [fst snd]. rewrite Hresp. cbn [fst snd]. rewrite Hcnt, Hc.
  rewrite (lookup_ge_None_2 (SearchQuery._articles sq)) by lia.
  cbn [fst snd]. rewrite Hresp. cbn [fst snd]. rewrite Hnum.
  unfold SearchQuery.articles, SearchQuery.query. cbn [int_ge].
  destruct (decide (length corpus ≤ k * Z.to_nat r)%nat) as [HN|HN].
  { destruct (Z.leb_spec (Z.of_nat (length corpus))
                (Z.of_nat (length (SearchQuery._articles sq)))); [|lia].
    unfold all_found. do 2 f_equal. destruct sq; simpl in *. by subst. }
  destruct (Z.leb_spec (Z.of_nat (length corpus))
              (Z.of_nat (length (SearchQuery._articles sq)))); [lia|].
  rewrite Hrows. cbn [Query.item].
  replace (Z.of_nat (length (SearchQuery._articles sq)))
    with (Z.of_nat k * r) by lia.
  rewrite page_of_pages.
  destruct (decide (SearchQuery.max_pages sq < Z.of_nat k)) as [Hm|Hm].
  { destruct (Z.ltb_spec (SearchQuery.max_pages sq) (Z.of_nat k)); [|lia].
    unfold max_pages_queried. do 2 f_equal. destruct sq; simpl in *. by subst. }
  destruct (Z.ltb_spec (SearchQuery.max_pages sq) (Z.of_nat k)); [lia|].
  assert (SearchQuery.set_response (Some resp) sq = sq) as ->
    by (destruct sq; simpl in *; by subst).
  done.
Qed.

(** When every record held was yielded and the result set has no more,
    the iteration ends, and the query is as it was. *)
Lemma next_all_found (w : World) (k c : nat) (sq : SearchQuery.t) :
  fetched corpus r k c sq →
  c = length (SearchQuery._articles sq) →
  (length corpus ≤ k * Z.to_nat r)%nat →
  SearchQuery.__next__ (w, sq) = (Raise all_found, (w, sq)).
Proof.
  intros Hf Hc HN. rewrite (next_exhausted w k c sq Hf Hc).
  by rewrite decide_True.
Qed.

(** When every record held was yielded, the result set has more and the
    number of pages fetched exceeds [max_pages], the iteration ends, and
    the query is as it was. *)
Lemma next_max_pages (w : World) (k c : nat) (sq : SearchQuery.t) :
  fetched corpus r k c sq →
  c = length (SearchQuery._articles sq) →
  (k * Z.to_nat r < length corpus)%nat →
  SearchQuery.max_pages sq < Z.of_nat k →
  SearchQuery.__next__ (w, sq) = (Raise max_pages_queried, (w, sq)).
Proof.
  intros Hf Hc HN Hm. rewrite (next_exhausted w k c sq Hf Hc).
  rewrite decide_False by lia. by rewrite decide_True.
Qed.

(** A page request takes a query from [k] pages to [k + 1]. *)
Lemma execute_fetched (w : World) (k c : nat) (sq : SearchQuery.t) :
  fetched corpus r k c sq →
  ∃ w' sq',
    SearchQuery.execute (w, sq) = (Ok tt, (w', sq')) ∧
    fetched corpus r (S k) c sq' ∧
    SearchQuery.max_pages sq' = SearchQuery.max_pages sq.
Proof.
  intros (Hrows & Hstart & Harts & (resp & Hresp & Hnum) & Hcnt & Hle & Hk).
  destruct (execute_serves w sq (Z.of_nat k * r) r)
    as (w' & b' & c' & Hex & Hnum' & _); [done|done|lia|done|].
  do 2 eexists. split; [exact Hex|]. split; [|done].
  unfold fetched. simpl. split_and!.
  - done.
  - f_equal. lia.
  - rewrite Harts, <- fmap_app. f_equal.
    replace (Z.to_nat (Z.of_nat k * r)) with (k * Z.to_nat r)%nat by lia.
    rewrite take_take_drop. f_equal. lia.
  - by exists c'.
  - done.
  - rewrite length_app. lia.
  - lia.
Qed.

(** The first call sends the first request and goes on as any other. *)
Lemma next_unstarted (w : World) (sq : SearchQuery.t) :
  unstarted r sq →
  ∃ w' sq',
    SearchQuery.__next__ (w, sq) = SearchQuery.__next__ (w', sq') ∧
    fetched corpus r 1 0 sq' ∧
    SearchQuery.max_pages sq' = SearchQuery.max_pages sq ∧
    ∃ hd, requests w'
          = requests w ++ [mkRequest SearchQuery.HTTP_ENDPOINT hd
                             (SearchQuery._query sq)].
Proof.
  intros (Hrows & Hstart & Harts & Hresp & Hcnt).
  destruct (execute_serves w sq 0 r)
    as (w' & b' & c' & Hex & Hnum' & Hreq); [done|done|lia|done|].
  match type of Hex with _ = (_, (_, ?sq1)) => exists w', sq1 end.
  split_and!; [| | |done].
  - unfold SearchQuery.__next__. munfold. cbn [fst snd].
    rewrite Hresp, Hex. by cbn [fst snd SearchQuery.response].
  - unfold fetched. simpl. split_and!; try done.
    + f_equal. lia.
    + rewrite Harts. simpl. f_equal. f_equal. lia.
    + by exists c'.
    + lia.
  - done.
Qed.

(** When every record held was yielded, the result set has more and the
    number of pages fetched does not exceed [max_pages], the next page is
    fetched and its first record yielded. *)
Lemma next_fetch (w : World) (k c : nat) (sq : SearchQuery.t) :
  fetched corpus r k c sq →
  c = length (SearchQuery._articles sq) →
  (k * Z.to_nat r < length corpus)%nat →
  Z.of_nat k ≤ SearchQuery.max_pages sq →
  ∃ d w' sq',
    corpus !! c = Some d ∧
    SearchQuery.__next__ (w, sq) = (Ok (record_of d), (w', sq')) ∧
    fetched corpus r (S k) (S c) sq' ∧
    SearchQuery.max_pages sq' = SearchQuery.max_pages sq.
Proof.
  intros Hf Hc HN Hm. pose proof (held_length k c sq Hf) as Hlen.
  destruct (execute_fetched w k c sq Hf) as (w1 & sq1 & Hex & Hf1 & Hm1).
  pose proof (held_length (S k) c sq1 Hf1) as Hlen1.
  destruct (held_lookup (S k) c sq1 c Hf1) as (d & Hd & Hart); [lia|].
  exists d, w1, (SearchQuery.set_iter_counter (S c) sq1).
  split; [done|].
  pose proof Hf1 as (Hrows1 & Hstart1 & Harts1 & Hresp1 & Hcnt1 & Hle1 & Hk1).
  split_and!.
  - rewrite (next_exhausted w k c sq Hf Hc).
    rewrite !decide_False by lia.
    unfold bind. rewrite Hex.
    unfold SearchQuery.yield_current. munfold. cbn [fst snd].
    by rewrite Hcnt1, Hart.
  - unfold fetched. simpl. split_and!; try done. lia.
  - done.
Qed.

(** One call of [__next__] on a query that has sent a request. *)
Lemma next_fetched (w : World) (k c : nat) (sq : SearchQuery.t) :
  fetched corpus r k c sq →
  ∃ res w' sq',
    SearchQuery.__next__ (w, sq) = (res, (w', sq')) ∧
    SearchQuery.max_pages sq' = SearchQuery.max_pages sq ∧
    match res with
    | Ok a =>
        ∃ d, corpus !! c = Some d ∧ a = record_of d ∧
             ((fetched corpus r k (S c) sq' ∧
               (c < length (SearchQuery._articles sq))%nat) ∨
              (fetched corpus r (S k) (S c) sq' ∧
               c = length (SearchQuery._articles sq) ∧
               (k * Z.to_nat r < length corpus)%nat ∧
               Z.of_nat k ≤ SearchQuery.max_pages sq))
    | Raise e =>
        stopped_at corpus r e c sq' ∧ sq' = sq ∧ w' = w ∧
        (e = max_pages_queried → SearchQuery.max_pages sq < Z.of_nat k)
    end.
Proof.
  intros Hf. pose proof (held_length k c sq Hf) as Hlen.
  pose proof Hf as (_ & Hstart & _ & _ & _ & Hle & _).
  destruct (decide (c < length (SearchQuery._articles sq))%nat) as [Hc|Hc].
  { destruct (next_held w k c sq Hf Hc) as (d & Hd & Hnext & Hf').
    exists (Ok (record_of d)), w, (SearchQuery.set_iter_counter (S c) sq).
    split_and!; [done..|]. exists d. split_and!; [done..|]. by left. }
  assert (c = length (SearchQuery._articles sq)) as Hc' by lia.
  destruct (decide (length corpus ≤ k * Z.to_nat r)%nat) as [HN|HN].
  { exists (Raise all_found), w, sq.
    split_and!; [by apply (next_all_found w k c)|done| |done..].
    exists k. split_and!; [done..|]. by left. }
  destruct (decide (SearchQuery.max_pages sq < Z.of_nat k)) as [Hm|Hm].
  { exists (Raise max_pages_queried), w, sq.
    split_and!; [apply (next_max_pages w k c); [done..|lia|done]|done| |done..].
    exists k. split_and!; [done..|]. right. split; [done|lia]. }
  destruct (next_fetch w k c sq Hf Hc') as (d & w' & sq' & Hd & Hnext & Hf' & Hm');
    [lia..|].
  exists (Ok (record_of d)), w', sq'. split_and!; [done..|].
  exists d. split_and!; [done..|]. right. split_and!; [done..|lia|lia].
Qed.


Lemma fetched_pages (k k' c c' : nat) (sq : SearchQuery.t) :
  fetched corpus r k c sq → fetched corpus r k' c' sq → k' = k.
Proof.
  intros (_ & Hstart & _) (_ & Hstart' & _).
  rewrite Hstart in Hstart'. simplify_eq. nia.
Qed.

(** What an uninterrupted iteration under the cap [m] yields from a state
    with [c] records yielded: the records from the [c]-th up to
    [yield_count], then [stop_reason]. *)
Lemma drain_fetched (m : Z) (n : nat) :
  ∀ (fuel : nat) (w : World) (k c : nat) (sq : SearchQuery.t),
    fetched corpus r k c sq →
    Z.of_nat k ≤ pages_cap m →
    SearchQuery.max_pages sq = m →
    yield_count corpus r m = (c + n)%nat →
    (n < fuel)%nat →
    ∃ s', SearchQuery.drain fuel (w, sq)
          = (record_of <$> take n (drop c corpus),
             Some (stop_reason corpus r m), s').
Proof.
  unfold yield_count, stop_reason, pages_cap.
  induction n as [|n IH]; intros fuel w k c sq Hf Hk Hm HT Hfuel;
    (destruct fuel as [|fuel]; [lia|]);
    pose proof (held_length k c sq Hf) as Hlen;
    pose proof Hf as (_ & _ & _ & _ & _ & Hle & Hk1);
    assert (Z.of_nat (k * Z.to_nat r) = Z.of_nat k * r) as Hkr by lia;
    destruct (next_fetched w k c sq Hf)
      as (res & w' & sq' & Hnext & Hm' & Hres);
    simpl; rewrite Hnext; destruct res as [a|e].
  - exfalso. destruct Hres as (d & Hd & _ & [[_ Hc]|(_ & Hc & HN & Hkm)]); nia.
  - destruct Hres as ((k' & Hf' & Hc & Hcase) & -> & -> & Hmax).
    rewrite (fetched_pages k k' c c sq Hf Hf') in Hcase.
    simpl. eexists. do 2 f_equal.
    destruct (Z.leb_spec (Z.of_nat (length corpus)) (r * (Z.max m 0 + 1)));
      destruct Hcase as [[-> HN]|[-> HN]]; try done.
    + specialize (Hmax eq_refl). nia.
    + nia.
  - destruct Hres as (d & Hd & -> & Hcase).
    assert (∃ k', fetched corpus r k' (S c) sq' ∧
                  Z.of_nat k' ≤ Z.max m 0 + 1) as (k' & Hf' & Hk').
    { destruct Hcase as [[Hf' _]|(Hf' & _ & _ & Hkm)].
      - by exists k.
      - exists (S k). split; [done|]. lia. }
    destruct (IH fuel w' k' (S c) sq' Hf' Hk') as (s' & Hdrain);
      [congruence|lia|lia|].
    rewrite Hdrain. eexists. do 2 f_equal.
    by rewrite (drop_S corpus d c Hd).
  - exfalso.
    destruct Hres as ((k' & Hf' & Hc & Hcase) & -> & -> & Hmax).
    rewrite (fetched_pages k k' c c sq Hf Hf') in Hcase.
    destruct Hcase as [[-> HN]|[-> HN]].
    + lia.
    + specialize (Hmax eq_refl). nia.
Qed.

(** An uninterrupted iteration of a new query. *)
Lemma drain_new_query (filter : string) (m : Z) (fuel : nat) (w : World) :
  (yield_count corpus r m < fuel)%nat →
  ∃ s', SearchQuery.drain fuel (w, new_query filter r m)
        = (record_of <$> take (yield_count corpus r m) corpus,
           Some (stop_reason corpus r m), s').
Proof.
  intros Hfuel.
  destruct (next_unstarted w (new_query filter r m))
    as (w1 & sq1 & Hnext & Hf1 & Hm1 & _); [by unfold unstarted|].
  destruct (drain_fetched m (yield_count corpus r m) fuel w1 1 0 sq1)
    as (s' & Hdrain); [done|unfold pages_cap; lia|done|done|done|].
  exists s'. rewrite drop_0 in Hdrain. rewrite <- Hdrain.
  destruct fuel as [|fuel]; [done|]. simpl. by rewrite Hnext.
Qed.

(** *** Interleaving calls with changes of [max_pages] *)











(** *** A query constructed at another offset *)

Section Offset.
Variable s0 : Z.
Hypothesis Hs0 : 0 ≤ s0.



















End Offset.


End Served.
End WithEnvironment.

(** The mock service serves its corpus. *)
Lemma count_prefix_unary (c : Ascii.ascii) (n : nat) :
  Mock.count_prefix c (Mock.unary c n EmptyString) = n.
Proof. induction n as [|n IH]; simpl; [done|]. by rewrite Ascii.eqb_refl, IH. Qed.

Lemma count_prefix_s (n m : nat) :
  Mock.count_prefix "s" (Mock.unary "s" n (Mock.unary "r" m EmptyString)) = n.
Proof. induction n as [|n IH]; simpl; [by destruct m|by rewrite IH]. Qed.

Lemma drop_prefix_s (n m : nat) :
  Mock.drop_prefix "s" (Mock.unary "s" n (Mock.unary "r" m EmptyString))
    = Mock.unary "r" m EmptyString.
Proof. induction n as [|n IH]; simpl; [by destruct m|by rewrite IH]. Qed.

Lemma wire_not_array (s n : Z) : String.eqb (Mock.wire s n) "[]" = false.
Proof.
  unfold Mock.wire. by destruct (Z.to_nat s), (Z.to_nat n).
Qed.

Lemma mock_serves (corpus : list (list (string * value))) (v : PyVersion) :
  @serves (Mock.env corpus v) corpus.
Proof.
  intros req s n Hs Hn Hs0 Hn0.
  exists (mkHTTPResponse true (Mock.wire s n) ∅).
  eexists. split_and!.
  - simpl. unfold http_get. simpl. unfold Mock.get. by rewrite Hs, Hn.
  - done.
  - unfold SolrResponse.__init__, json_loads. simpl.
    unfold Mock.loads. rewrite wire_not_array. simpl. reflexivity.
  - simpl. done.
  - simpl. unfold Mock.wire.
    by rewrite drop_prefix_s, count_prefix_s, count_prefix_unary.
Qed.



(** C1, on the code.  The scenario of [test_iter]: a query with
    [rows=1] and [max_pages=20] over a result set of 28 yields the first
    21 records, not min(28, 1 * 20) = 20, before it stops with "Maximum
    number of pages queried"; and over a result set of 21 it yields all 21
    and stops with "All records found", although 21 exceeds 1 * 20.  Both
    hold under either Python version. *)
Theorem test_iter_yields_21 (v : PyVersion) :
  (∃ s', @SearchQuery.drain (Mock.env Mock.corpus28 v) 100
           (Mock.world, new_query "unittest" 1 20)
         = (record_of <$> take 21 Mock.corpus28, Some max_pages_queried, s')) ∧
  (∃ s', @SearchQuery.drain (Mock.env (take 21 Mock.corpus28) v) 100
           (Mock.world, new_query "unittest" 1 20)
         = (record_of <$> take 21 Mock.corpus28, Some all_found, s')) ∧
  length (record_of <$> take 21 Mock.corpus28) = 21%nat ∧
  Z.min 28 (1 * 20) = 20.
Proof.
  split_and!; [| |done..].
  - destruct (@drain_new_query (Mock.env Mock.corpus28 v) Mock.corpus28
                (mock_serves _ v) eq_refl 1 eq_refl "unittest" 20 100
                Mock.world) as (s' & Hdrain); [vm_compute; lia|].
    by exists s'.
  - destruct (@drain_new_query (Mock.env (take 21 Mock.corpus28) v)
                (take 21 Mock.corpus28)
                (mock_serves _ v) eq_refl 1 eq_refl "unittest" 20 100
                Mock.world) as (s' & Hdrain); [vm_compute; lia|].
    by exists s'.
Qed.

End IterationFacts.

(** ** Fields resolved on demand *)

Module LazyFacts.
Section WithEnvironment.
Context `{Environment}.

(** A field the record has is read without a request. *)
Lemma getattribute_held (depth : nat) (field : string) (v : value)
    (w : World) (a : Article.t) :
  Article.__dict__ a !! field = Some v →
  Lazy.__getattribute__ depth field (w, a) = (Ok v, (w, a)).
Proof.
  intros Hv. destruct depth; simpl; munfold; cbn [fst snd]; by rewrite Hv.
Qed.




End WithEnvironment.



End LazyFacts.

(** ** Article: construction *)

Module RecordFacts.

Lemma dict_of_snoc (d : list (string * value)) (k : string) (v : value) :
  Article.dict_of (d ++ [(k, v)]) = <[k := v]> (Article.dict_of d).
Proof. unfold Article.dict_of. by rewrite foldl_app. Qed.

Lemma dict_of_reverse (d : list (string * value)) :
  Article.dict_of d = list_to_map (reverse d).
Proof.
  induction d as [|[k v] d IH] using rev_ind; [done|].
  by rewrite dict_of_snoc, reverse_snoc, IH.
Qed.

Lemma setattrs_unwrappable (d : list (string * value)) :
  wrappable d = false →
  ∃ pre key v post,
    d = pre ++ (key, v) :: post ∧ wrappable pre = true ∧
    key ∈ Article.read_only ∧
    ∀ m, Article.setattrs d m = Raise (AttributeError key).
Proof.
  induction d as [|[k v] d IH]; intros Hw; [done|].
  simpl in Hw. destruct (bool_decide (k ∈ Article.read_only)) eqn:Hk.
  - apply bool_decide_eq_true in Hk.
    exists [], k, v, d. split_and!; try done.
    intros m. simpl. by rewrite bool_decide_eq_true_2.
  - simpl in Hw. destruct (IH Hw) as (pre & key & v' & post & -> & Hpre & Hkey & Hset).
    exists ((k, v) :: pre), key, v', post. split_and!; try done.
    + simpl. by rewrite Hk, Hpre.
    + intros m. simpl. by rewrite Hk.
Qed.

Lemma init_after_id_check (kwargs : list (string * value)) (w : World) :
  Article.__init__ kwargs w
  = match Article.setattrs kwargs ∅ with
    | Ok d => (Ok (Article.mk (Article.dict_of kwargs) d),
               after_id_check kwargs w)
    | Raise e => (Raise e, after_id_check kwargs w)
    end.
Proof.
  unfold Article.__init__, after_id_check. munfold.
  destruct (assoc "id" kwargs); simpl;
    by destruct (Article.setattrs kwargs ∅).
Qed.



(** X2.  For keyword arguments of distinct ordinary names (none of them
    [_raw], a method of the class such as [keys] or [items], or a name in
    double underscores), [keys()] and [items()] of the record that the
    constructor returns give back the names and the pairs of the
    arguments, in some order, and the attributes of the record, [_raw]
    apart, are exactly the arguments. *)
Theorem items_round_trip (kwargs : list (string * value)) (w w' : World)
    (a : Article.t) :
  ordinary kwargs = true →
  NoDup kwargs.*1 →
  Article.__init__ kwargs w = (Ok a, w') →
  Article.items a ≡ₚ kwargs ∧
  Article.keys a ≡ₚ kwargs.*1 ∧
  ∀ k v, (k, v) ∈ kwargs ↔ Article.__dict__ a !! k = Some v.
Proof.
  intros _ Hnd Hinit. rewrite init_after_id_check in Hinit.
  destruct (wrappable kwargs) eqn:Hw.
  - rewrite (EnvelopeFacts.setattrs_wrappable kwargs ∅ Hw) in Hinit.
    simplify_eq. unfold Article.items, Article.keys. simpl.
    fold (Article.dict_of kwargs). rewrite dict_of_reverse.
    assert (NoDup (reverse kwargs).*1) as Hnd'.
    { by rewrite fmap_reverse, reverse_Permutation. }
    assert (map_to_list (list_to_map (M := gmap string value)
                           (reverse kwargs)) ≡ₚ kwargs) as Hperm.
    { rewrite map_to_list_to_map by done. apply reverse_Permutation. }
    split_and!.
    + done.
    + by rewrite Hperm.
    + intros k v. rewrite <- elem_of_list_to_map by done.
      by rewrite elem_of_reverse.
  - destruct (setattrs_unwrappable kwargs Hw)
      as (? & key & ? & ? & _ & _ & _ & Hset).
    by rewrite Hset in Hinit.
Qed.

Lemma items_round_trip_witness :
  Article.items (record_of [("bibcode", VStr "b"); ("year", VInt 2013)])
  ≡ₚ [("bibcode", VStr "b"); ("year", VInt 2013)].
Proof.
  refine (proj1 (items_round_trip
                   [("bibcode", VStr "b"); ("year", VInt 2013)]
                   Mock.world
                   (after_id_check [("bibcode", VStr "b"); ("year", VInt 2013)]
                      Mock.world)
                   (record_of [("bibcode", VStr "b"); ("year", VInt 2013)])
                   _ _ _)).
  - reflexivity.
  - apply (bool_decide_unpack _). by vm_compute.
  - reflexivity.
Defined.

End RecordFacts.

(** ** SolrResponse: a document that cannot be wrapped *)

Module WrappingFacts.





End WrappingFacts.

(** ** SearchQuery: requests, whatever the service answers *)

Module RequestFacts.

Lemma grows_refl (s : World * SearchQuery.t) : grows 0 s s.
Proof. unfold grows. split_and!; try done. lia. Qed.

Lemma grows_trans (n m : nat) (s1 s2 s3 : World * SearchQuery.t) :
  grows n s1 s2 → grows m s2 s3 → grows (n + m) s1 s3.
Proof.
  unfold grows. intros (?&?&?&?&?&?) (?&?&?&?&?&?).
  split_and!; try congruence; try (by etrans); lia.
Qed.

Lemma grows_le (n m : nat) (s s' : World * SearchQuery.t) :
  (n ≤ m)%nat → grows n s s' → grows m s s'.
Proof. unfold grows. intros ? (?&?&?&?&?&?). split_and!; try done. lia. Qed.

Lemma new_same_outside (doc : value) (w : World) :
  same_outside w (Article.new doc w).2.
Proof.
  destruct doc; try done.
  simpl. rewrite RecordFacts.init_after_id_check.
  assert (same_outside w (after_id_check d w)).
  { unfold after_id_check. destruct (assoc "id" d); auto. }
  by destruct (Article.setattrs d ∅).
Qed.

Lemma wrap_same_outside (ds : list value) (w : World) (c : SolrResponse.t) :
  same_outside w (SolrResponse.wrap ds (w, c)).2.1.
Proof.
  revert w c. induction ds as [|doc ds IH]; intros w c; [done|].
  simpl. munfold. simpl.
  pose proof (new_same_outside doc w) as Hnew.
  destruct (Article.new doc w) as [[a|e] w1]; simpl in *; [|done].
  eapply same_outside_trans; [exact Hnew|]. apply IH.
Qed.

Lemma articles_same_outside (w : World) (c : SolrResponse.t) :
  same_outside w (SolrResponse.articles (w, c)).2.1.
Proof.
  unfold SolrResponse.articles. munfold. simpl.
  destruct (SolrResponse._articles c); simpl; [done|].
  destruct (SolrResponse.py_iter (SolrResponse.docs c)) as [ds|]; simpl;
    [|done].
  pose proof (wrap_same_outside ds w
                (SolrResponse.set_articles (Some []) c)) as Hwrap.
  by destruct (SolrResponse.wrap ds _) as [[[]|e] [w1 c1]].
Qed.

Section WithEnvironment.
Context `{Environment}.

(** One call of [execute], step by step. *)
Lemma execute_any (w : World) (sq : SearchQuery.t) :
  ∃ hd w1 b1,
    BaseQuery.session (w, SearchQuery.base sq) = (Ok hd, (w1, b1)) ∧
    same_outside w w1 ∧
    match http_get (mkRequest SearchQuery.HTTP_ENDPOINT hd
                      (SearchQuery._query sq)) with
    | Raise e =>
        SearchQuery.execute (w, sq)
        = (Raise e,
           ((log_request (mkRequest SearchQuery.HTTP_ENDPOINT hd
                            (SearchQuery._query sq)) w1).2,
            SearchQuery.set_base b1 sq))
    | Ok h =>
        match SolrResponse.load_http_response h with
        | Raise e =>
            SearchQuery.execute (w, sq)
            = (Raise e,
               ((log_request (mkRequest SearchQuery.HTTP_ENDPOINT hd
                                (SearchQuery._query sq)) w1).2,
                SearchQuery.set_base b1 sq))
        | Ok c =>
            ∃ res w2 c' new q',
              SearchQuery.execute (w, sq)
              = (res,
                 (w2, SearchQuery.mk b1 (SearchQuery._articles sq ++ new)
                        (Some c') (SearchQuery.max_pages sq)
                        (SearchQuery.__iter_counter sq) q')) ∧
              same_outside
                (log_request (mkRequest SearchQuery.HTTP_ENDPOINT hd
                                (SearchQuery._query sq)) w1).2 w2 ∧
              Query.rows q' = Query.rows (SearchQuery._query sq)
        end
    end.
Proof.
  destruct (ExecuteFacts.session_total w (SearchQuery.base sq))
    as (hd & w1 & b1 & Hs & Hw1).
  exists hd, w1, b1. split; [done|]. split; [done|].
  unfold SearchQuery.execute. munfold.
  unfold SearchQuery.on_base, SearchQuery.on_response, zoom. simpl.
  rewrite Hs. simpl. unfold SearchQuery.query.
  destruct (http_get _) as [h|e]; [|done].
  destruct (SolrResponse.load_http_response h) as [c|e]; [|done].
  simpl.
  match goal with
  | |- context [SolrResponse.articles (?w0, c)] =>
      pose proof (articles_same_outside w0 c) as Harts;
      destruct (SolrResponse.articles (w0, c)) as [[arts|e] [w2 c2]]
  end; simpl in *.
  - destruct (Query.start (SearchQuery._query sq)) as [st|]; simpl.
    + destruct (Query.rows (SearchQuery._query sq)) as [r|] eqn:Hr; simpl.
      * do 5 eexists. split; [reflexivity|]. by split.
      * do 5 eexists. split; [reflexivity|]. by split.
    + do 5 eexists. split; [reflexivity|]. by split.
  - exists (Raise e), w2, c2, [], (SearchQuery._query sq).
    rewrite app_nil_r. by split.
Qed.

Lemma execute_grows (s : World * SearchQuery.t) :
  ∃ res s',
    SearchQuery.execute s = (res, s') ∧ grows 1 s s' ∧
    SearchQuery.__iter_counter s'.2 = SearchQuery.__iter_counter s.2 ∧
    SearchQuery.max_pages s'.2 = SearchQuery.max_pages s.2 ∧
    (res = Ok tt → is_Some (SearchQuery.response s'.2)).
Proof.
  destruct s as [w sq].
  destruct (execute_any w sq) as (hd & w1 & b1 & _ & (He & Hf & Hr) & Hex).
  assert (∀ w2 : World,
            same_outside
              (log_request (mkRequest SearchQuery.HTTP_ENDPOINT hd
                              (SearchQuery._query sq)) w1).2 w2 →
            environ w2 = environ w ∧ files w2 = files w ∧
            requests w `prefix_of` requests w2 ∧
            (length (requests w2) ≤ length (requests w) + 1)%nat) as Hlog.
  { intros w2 (He2 & Hf2 & Hr2). simpl in *.
    rewrite He2, Hf2, Hr2, Hr, He, Hf. split_and!; try done.
    - by apply prefix_app_r.
    - rewrite length_app. simpl. lia. }
  destruct (http_get _) as [h|e].
  - destruct (SolrResponse.load_http_response h) as [c|e].
    + destruct Hex as (res & w2 & c' & new & q' & Hex & Hw2 & Hrows).
      destruct (Hlog w2 Hw2) as (?&?&?&?).
      eexists _, _. split; [exact Hex|]. unfold grows. simpl.
      split_and!; try done; eauto. by apply prefix_app_r.
    + destruct (Hlog _ (same_outside_refl _)) as (?&?&?&?).
      eexists _, _. split; [exact Hex|]. unfold grows. simpl.
      split_and!; done.
  - destruct (Hlog _ (same_outside_refl _)) as (?&?&?&?).
    eexists _, _. split; [exact Hex|]. unfold grows. simpl.
    split_and!; done.
Qed.

(** X4.  Every call of [execute] sends exactly one request: to the
    search endpoint, under the headers of the session, with the
    parameters the query holds at that moment.  When the request fails,
    or the answer is an error or cannot be parsed, the call raises that
    error and the records, the response and the parameters of the query
    are what they were, so that the next call sends the same page
    request again. *)
Theorem execute_sends_one_request (w : World) (sq : SearchQuery.t) :
  ∃ hd w1 b1 res w' sq',
    BaseQuery.session (w, SearchQuery.base sq) = (Ok hd, (w1, b1)) ∧
    SearchQuery.execute (w, sq) = (res, (w', sq')) ∧
    requests w'
    = requests w ++ [mkRequest SearchQuery.HTTP_ENDPOINT hd
                       (SearchQuery._query sq)] ∧
    environ w' = environ w ∧ files w' = files w ∧
    SearchQuery.base sq' = b1 ∧
    SearchQuery.max_pages sq' = SearchQuery.max_pages sq ∧
    SearchQuery.__iter_counter sq' = SearchQuery.__iter_counter sq ∧
    ∀ e,
      http_get (mkRequest SearchQuery.HTTP_ENDPOINT hd
                  (SearchQuery._query sq)) = Raise e ∨
      (∃ h, http_get (mkRequest SearchQuery.HTTP_ENDPOINT hd
                        (SearchQuery._query sq)) = Ok h ∧
            SolrResponse.load_http_response h = Raise e) →
      res = Raise e ∧
      SearchQuery._articles sq' = SearchQuery._articles sq ∧
      SearchQuery.response sq' = SearchQuery.response sq ∧
      SearchQuery._query sq' = SearchQuery._query sq.
Proof.
  destruct (execute_any w sq)
    as (hd & w1 & b1 & Hs & (He & Hf & Hr) & Hex).
  exists hd, w1, b1.
  destruct (http_get _) as [h|e0] eqn:Hget.
  - destruct (SolrResponse.load_http_response h) as [c|e0] eqn:Hload.
    + destruct Hex as (res & w2 & c' & new & q' & Hex & (He2 & Hf2 & Hr2) & _).
      eexists res, w2, _. split; [done|]. split; [exact Hex|].
      simpl in *. split_and!; try congruence.
      intros e [?|(h' & ? & ?)]; simplify_eq; congruence.
    + eexists _, _, _. split; [done|]. split; [exact Hex|].
      simpl. split_and!; try congruence.
      intros e [?|(h' & ? & ?)]; simplify_eq; split_and!; congruence.
  - eexists _, _, _. split; [done|]. split; [exact Hex|].
    simpl. split_and!; try congruence.
    intros e [?|(h' & ? & ?)]; simplify_eq; split_and!; congruence.
Qed.

(** A call of [__next__] on a query that has a response. *)
Lemma next_started (w : World) (sq : SearchQuery.t) (r0 : SolrResponse.t) :
  SearchQuery.response sq = Some r0 →
  ∃ res s',
    SearchQuery.__next__ (w, sq) = (res, s') ∧ grows 1 (w, sq) s' ∧
    SearchQuery.max_pages s'.2 = SearchQuery.max_pages sq ∧
    match res with
    | Ok a =>
        SearchQuery.__iter_counter s'.2 = S (SearchQuery.__iter_counter sq) ∧
        SearchQuery._articles s'.2 !! SearchQuery.__iter_counter sq = Some a
    | Raise _ =>
        SearchQuery.__iter_counter s'.2 = SearchQuery.__iter_counter sq
    end.
Proof.
  intros Hresp. destruct sq as [b arts resp m c q]. simpl in Hresp. subst resp.
  pose proof (grows_le 0 1 (w, SearchQuery.mk b arts (Some r0) m c q)
                (w, SearchQuery.mk b arts (Some r0) m c q)
                ltac:(lia) (grows_refl _)) as Hsame.
  unfold SearchQuery.__next__. munfold. simpl.
  destruct (arts !! c) as [cur|] eqn:Hcur.
  - unfold SearchQuery.yield_current. munfold. simpl. rewrite Hcur. simpl.
    eexists _, _. split; [reflexivity|]. split; [exact Hsame|]. by simpl.
  - unfold SearchQuery.on_response. simpl.
    destruct (int_ge _ _ _) as [[]|]; simpl;
      try (eexists _, _; split; [reflexivity|]; split; [exact Hsame|]; done).
    unfold SearchQuery.query. simpl.
    destruct (Query.rows q) as [r|]; simpl;
      try (eexists _, _; split; [reflexivity|]; split; [exact Hsame|]; done).
    destruct (SearchQuery.page_of _ _ _) as [page|]; simpl;
      try (eexists _, _; split; [reflexivity|]; split; [exact Hsame|]; done).
    destruct (m <? page); simpl;
      try (eexists _, _; split; [reflexivity|]; split; [exact Hsame|]; done).
    destruct (execute_grows (w, SearchQuery.mk b arts (Some r0) m c q))
      as (res & [w2 sq2] & Hex & Hg & Hc & Hm & _).
    unfold SearchQuery.set_response. simpl. rewrite Hex. simpl in *.
    destruct res as [[]|e]; simpl.
    + unfold SearchQuery.yield_current. munfold. simpl. rewrite Hc.
      destruct (SearchQuery._articles sq2 !! c) as [cur|] eqn:Hcur2; simpl.
      * eexists _, _. split; [reflexivity|]. split; [exact Hg|]. by simpl.
      * eexists _, _. split; [reflexivity|]. split; [exact Hg|]. by simpl.
    + eexists _, _. split; [reflexivity|]. split; [exact Hg|]. by simpl.
Qed.

(** A call of [__next__], from any state. *)
Lemma next_any (s : World * SearchQuery.t) :
  ∃ res s',
    SearchQuery.__next__ s = (res, s') ∧ grows 2 s s' ∧
    SearchQuery.max_pages s'.2 = SearchQuery.max_pages s.2 ∧
    match res with
    | Ok a =>
        SearchQuery.__iter_counter s'.2
        = S (SearchQuery.__iter_counter s.2) ∧
        SearchQuery._articles s'.2 !! SearchQuery.__iter_counter s.2 = Some a
    | Raise _ =>
        SearchQuery.__iter_counter s'.2 = SearchQuery.__iter_counter s.2
    end.
Proof.
  destruct s as [w sq].
  destruct (SearchQuery.response sq) as [r0|] eqn:Hresp.
  - destruct (next_started w sq r0 Hresp) as (res & s' & Hn & Hg & Hrest).
    exists res, s'. split; [done|]. split; [|done].
    by apply (grows_le 1 2); [lia|].
  - destruct (execute_grows (w, sq))
      as (res1 & [w1 sq1] & Hex & Hg1 & Hc1 & Hm1 & Hsome).
    destruct res1 as [[]|e].
    + destruct Hsome as [r1 Hr1]; [done|].
      destruct (next_started w1 sq1 r1 Hr1)
        as (res & s' & Hn & Hg & Hm & Hcount).
      assert (SearchQuery.__next__ (w, sq) = SearchQuery.__next__ (w1, sq1))
        as Heq.
      { unfold SearchQuery.__next__. munfold. simpl.
        rewrite Hresp, Hex. simpl in *. by rewrite Hr1. }
      exists res, s'. rewrite Heq. split; [done|]. simpl in *.
      split; [by apply (grows_trans 1 1 _ (w1, sq1))|].
      split; [congruence|]. by rewrite <- Hc1.
    + exists (Raise e), (w1, sq1). split.
      * unfold SearchQuery.__next__. munfold. simpl.
        by rewrite Hresp, Hex.
      * split; [by apply (grows_le 1 2); [lia|]|]. by simpl in *.
Qed.

(** X5.  Whatever the service answers, and however calls of [__next__]
    and assignments to [max_pages] are mixed, the records yielded are
    the stretch of the accumulated list that begins where the counter
    stood: no position is yielded twice and none is passed over, the
    counter advances by one per record yielded and stays on an error,
    records already held are never removed, [rows] is never changed, and
    no call sends more than two requests. *)
Theorem run_any_service (acts : list action) (s : World * SearchQuery.t) :
  ∃ evs s',
    run acts s = (evs, s') ∧
    grows (2 * nexts acts) s s' ∧
    SearchQuery.__iter_counter s'.2
    = (SearchQuery.__iter_counter s.2 + length (yields evs))%nat ∧
    yields evs
    = take (length (yields evs))
        (drop (SearchQuery.__iter_counter s.2) (SearchQuery._articles s'.2)).
Proof.
  revert s. induction acts as [|[|m] acts IH]; intros s.
  - exists [], s. split; [done|]. split; [apply grows_refl|].
    split; [simpl; lia|done].
  - destruct (next_any s) as (res & s1 & Hn & Hg & _ & Hcount).
    destruct (IH s1) as (evs & s' & Hrun & Hg' & Hc' & Hy).
    simpl. rewrite Hn.
    assert (grows (2 * S (nexts acts)) s s') as Hgrows.
    { replace (2 * S (nexts acts))%nat with (2 + 2 * nexts acts)%nat by lia.
      by eapply grows_trans. }
    destruct res as [a|e]; rewrite Hrun.
    + destruct Hcount as [Hc1 Ha].
      exists (Yielded a :: evs), s'. split; [done|]. split; [done|].
      split; [simpl; lia|].
      change (yields (Yielded a :: evs)) with (a :: yields evs). simpl.
      destruct Hg' as (_ & _ & _ & _ & Hpre & _).
      eapply prefix_lookup_Some in Ha; [|exact Hpre].
      rewrite (drop_S _ _ _ Ha). simpl. f_equal.
      by rewrite Hc1 in Hy.
    + exists (Stopped e :: evs), s'. split; [done|]. split; [done|].
      change (yields (Stopped e :: evs)) with (yields evs).
      by rewrite <- Hcount.
  - destruct (IH (SearchQuery.assign_max_pages m s).2)
      as (evs & s' & Hrun & Hg' & Hc' & Hy).
    exists evs, s'. simpl. split; [done|]. by destruct s.
Qed.

Lemma loaded_unwrapped (h : HTTPResponse) (c : SolrResponse.t) :
  SolrResponse.load_http_response h = Ok c → SolrResponse._articles c = None.
Proof.
  unfold SolrResponse.load_http_response, APIResponse.load_http_response.
  destruct (ok h); simpl; [|done].
  destruct (SolrResponse.__init__ (text h)) as [c0|] eqn:Hinit; simpl; [|done].
  intros [= <-]. simpl. by eapply EnvelopeInit.init_attributes.
Qed.

(** X6.  The constructor accepts [start=None], which leaves the query
    without a [start] parameter.  On such a query every call of [execute]
    whose request is answered stores the response and appends the records
    of the answer, and then raises [KeyError] for [start]; the parameters
    stay as they were, so the next call appends the same page once
    more. *)
Theorem execute_without_start (w : World) (sq : SearchQuery.t) :
  (∀ (filter : string) (r m : Z),
     filter ≠ EmptyString → 0 < r →
     ∃ sq0, SearchQuery.__init__ None (Some filter) None None None None
              (Some r) m [] = Ok sq0 ∧
            Query.start (SearchQuery._query sq0) = None) ∧
  (Query.start (SearchQuery._query sq) = None →
   ∃ hd w1 b1,
     BaseQuery.session (w, SearchQuery.base sq) = (Ok hd, (w1, b1)) ∧
     ∀ h c ds,
       http_get (mkRequest SearchQuery.HTTP_ENDPOINT hd
                   (SearchQuery._query sq)) = Ok h →
       SolrResponse.load_http_response h = Ok c →
       SolrResponse.docs c = VList (VDict <$> ds) →
       forallb wrappable ds = true →
       ∃ w' c',
         SearchQuery.execute (w, sq)
         = (Raise (KeyError "start"),
            (w', SearchQuery.mk b1
                   (SearchQuery._articles sq ++ (record_of <$> ds))
                   (Some c') (SearchQuery.max_pages sq)
                   (SearchQuery.__iter_counter sq) (SearchQuery._query sq)))).
Proof.
  split.
  - intros filter r m Hfilter Hr.
    exists (SearchQuery.mk BaseQuery.fresh [] None m 0
              (Query.mk (Some filter) None None None None (Some r))).
    split; [|reflexivity].
    unfold SearchQuery.__init__. simpl.
    destruct (Z.ltb_spec 0 r) as [_|]; [|lia]. simpl.
    by destruct filter.
  - intros Hstart.
    destruct (ExecuteFacts.session_total w (SearchQuery.base sq))
      as (hd & w1 & b1 & Hs & Hw1).
    exists hd, w1, b1. split; [done|].
    intros h c ds Hget Hload Hdocs Hwrap.
    unfold SearchQuery.execute. munfold.
    unfold SearchQuery.on_base, SearchQuery.on_response, zoom. simpl.
    rewrite Hs. simpl. unfold SearchQuery.query. rewrite Hget, Hload. simpl.
    match goal with
    | |- context [SolrResponse.articles (?w0, c)] =>
        destruct (EnvelopeFacts.articles_wrappable ds w0 c
                    (loaded_unwrapped h c Hload) Hdocs Hwrap)
          as (w2 & Harts & _)
    end.
    rewrite Harts. simpl. rewrite Hstart. simpl. by eexists _, _.
Qed.

End WithEnvironment.

Lemma execute_without_start_witness :
  ∃ w' sq',
    @SearchQuery.execute MockDefaults.two
      (Mock.world, MockDefaults.without_start)
    = (Raise (KeyError "start"), (w', sq')) ∧
    SearchQuery._articles sq'
    = [record_of (Mock.doc 0); record_of (Mock.doc 1)] ∧
    SearchQuery._query sq'
    = SearchQuery._query MockDefaults.without_start.
Proof.
  destruct (@execute_without_start MockDefaults.two Mock.world
              MockDefaults.without_start) as [_ Hex].
  destruct Hex as (hd & w1 & b1 & _ & Hex); [reflexivity|].
  destruct (Hex (mkHTTPResponse true (Mock.wire 0 5) ∅)
              (SolrResponse.set_response
                 (mkHTTPResponse true (Mock.wire 0 5) ∅)
                 (SolrResponse.mk (Mock.wire 0 5)
                    (Mock.envelope [Mock.doc 0; Mock.doc 1] 0 5) None
                    (VDict [("status", VInt 0); ("params", VDict [])])
                    (VDict [])
                    (SolrResponse.FromJson
                       (VDict [("numFound", VInt 2); ("start", VInt 0);
                               ("docs", VList [VDict (Mock.doc 0);
                                               VDict (Mock.doc 1)])]))
                    (VInt 2)
                    (VList [VDict (Mock.doc 0); VDict (Mock.doc 1)])))
              [Mock.doc 0; Mock.doc 1])
    as (w' & c' & Hrun).
  - reflexivity.
  - reflexivity.
  - reflexivity.
  - reflexivity.
  - eexists w', _. split; [exact Hrun|]. split; reflexivity.
Defined.

Lemma execute_sends_one_request_witness :
  ∃ w' sq',
    @SearchQuery.execute Mock.nothing (Mock.world, MockDefaults.without_start)
    = (Raise (APIResponseError "bad request"), (w', sq')) ∧
    SearchQuery._articles sq' = [] ∧
    SearchQuery.response sq' = None.
Proof.
  destruct (@execute_sends_one_request Mock.nothing Mock.world
              MockDefaults.without_start)
    as (hd & w1 & b1 & res & w' & sq' & _ & Hex & _ & _ & _ & _ & _ & _
        & Hfail).
  destruct (Hfail (APIResponseError "bad request")) as (-> & Ha & Hr & _).
  - right. exists (mkHTTPResponse false "bad request" ∅).
    split; reflexivity.
  - exists w', sq'. split; [exact Hex|]. split; [exact Ha|exact Hr].
Defined.

End RequestFacts.

(** ** SearchQuery: the page count of the stop check *)

Module PagingFacts.

Lemma nearest_even_bounds (a b : Z) :
  0 < b → a / b ≤ SearchQuery.nearest_even a b ≤ a / b + 1.
Proof.
  intros Hb. unfold SearchQuery.nearest_even.
  destruct (2 * (a mod b) ?= b); [destruct (Z.even (a / b))|..]; lia.
Qed.

Lemma nearest_even_up (a b : Z) :
  0 < b → b < 2 * (a mod b) → SearchQuery.nearest_even a b = a / b + 1.
Proof.
  intros Hb Hhalf. unfold SearchQuery.nearest_even.
  destruct (Z.compare_spec (2 * (a mod b)) b); lia.
Qed.

Lemma nearest_even_exact (a b : Z) :
  0 < b → a mod b = 0 → SearchQuery.nearest_even a b = a / b.
Proof.
  intros Hb Hrem. unfold SearchQuery.nearest_even. rewrite Hrem.
  destruct (Z.compare_spec (2 * 0) b); lia.
Qed.

(** The ceiling of the rounded quotient is the ceiling of the quotient
    when the scale is fine enough for the divisor. *)
Lemma ceil_nearest_even (a b P : Z) :
  0 ≤ a → 0 < b → 0 < P → b < 2 * P →
  - ((- SearchQuery.nearest_even (a * P) b) / P) = - ((- a) / b).
Proof.
  intros Ha Hb HP Hfine.
  pose proof (Z.div_mod a b ltac:(lia)) as Hdiv.
  pose proof (Z.mod_pos_bound a b Hb) as Hrem.
  remember (a / b) as k eqn:Hk. remember (a mod b) as t eqn:Ht.
  assert (- ((- a) / b) = if decide (t = 0) then k else k + 1) as ->.
  { destruct (decide (t = 0)) as [Ht0|Ht0].
    - assert ((- a) / b = - k); [|lia].
      symmetry. apply (Z.div_unique _ _ _ 0); lia.
    - assert ((- a) / b = - k - 1); [|lia].
      symmetry. apply (Z.div_unique _ _ _ (b - t)); lia. }
  pose proof (nearest_even_bounds (a * P) b Hb) as Hm.
  pose proof (Z.div_mod (a * P) b ltac:(lia)) as Hdiv'.
  pose proof (Z.mod_pos_bound (a * P) b Hb) as Hrem'.
  destruct (decide (t = 0)) as [Ht0|Ht0].
  - assert ((a * P) mod b = 0) as Hu.
    { replace (a * P) with ((k * P) * b) by lia. apply Z.mod_mul. lia. }
    rewrite nearest_even_exact by done.
    assert ((a * P) / b = k * P) as -> by (rewrite Hu in Hdiv'; nia).
    rewrite <- Z.mul_opp_l, Z.div_mul by lia. lia.
  - remember ((a * P) / b) as q eqn:Hq.
    remember ((a * P) mod b) as u eqn:Hu.
    remember (SearchQuery.nearest_even (a * P) b) as m eqn:Hmdef.
    assert (k * P < m ≤ (k + 1) * P) as Hbetween.
    { assert (k * P ≤ q) by nia.
      assert (q < (k + 1) * P) by nia.
      split; [|lia].
      destruct (decide (q = k * P)) as [Hqk|Hqk]; [|lia].
      assert (u = t * P) by nia.
      rewrite Hmdef, nearest_even_up; [lia|lia|]. rewrite <- Hu. nia. }
    assert ((- m) / P = - k - 1); [|lia].
    symmetry. apply (Z.div_unique _ _ _ ((k + 1) * P - m)); lia.
Qed.

Lemma binary64_fine (a b : Z) :
  0 < a < 2 ^ 53 → 0 < b < 2 ^ 53 →
  ∃ s, 0 ≤ s ∧ b < 2 * 2 ^ s ∧
       SearchQuery.binary64 a b = (SearchQuery.nearest_even (a * 2 ^ s) b, s).
Proof.
  intros [Ha Ha53] [Hb Hb53]. unfold SearchQuery.binary64.
  pose proof (Z.log2_nonneg a) as Hla0.
  pose proof (Z.log2_nonneg b) as Hlb0.
  assert (Z.log2 a < 53) as Hla by (by apply Z.log2_lt_pow2).
  assert (Z.log2 b < 53) as Hlb by (by apply Z.log2_lt_pow2).
  pose proof (Z.log2_spec b Hb) as [_ Hbhi].
  set (la := Z.log2 a) in *. set (lb := Z.log2 b) in *.
  set (below := if 0 <=? la - lb then _ else _).
  set (e := if below then la - lb - 1 else la - lb).
  assert (la - lb - 1 ≤ e ≤ la - lb) as He by (unfold e; destruct below; lia).
  rewrite Z.max_l by lia.
  exists (52 - e). split; [lia|]. split.
  - rewrite <- Z.pow_succ_r by lia.
    eapply Z.lt_le_trans; [exact Hbhi|].
    apply Z.pow_le_mono_r; lia.
  - destruct (Z.leb_spec 0 (52 - e)); [done|lia].
Qed.

Lemma true_page_of_exact (n r : Z) :
  0 ≤ n < 2 ^ 53 → 0 < r < 2 ^ 53 →
  SearchQuery.true_page_of n r = SearchQuery.page_of Py3 n r.
Proof.
  intros Hn Hr. unfold SearchQuery.true_page_of, SearchQuery.page_of.
  destruct (Z.eqb_spec r 0) as [|_]; [lia|].
  destruct (Z.eqb_spec n 0) as [->|Hn0].
  { by rewrite Z.opp_0, Z.div_0_l by lia. }
  rewrite !Z.abs_eq by lia.
  destruct (binary64_fine n r) as (s & Hs & Hfine & ->); [lia..|].
  destruct (Z.ltb_spec s 0) as [|_]; [lia|]. simpl.
  destruct (Z.ltb_spec n 0) as [|_]; [lia|].
  destruct (Z.ltb_spec r 0) as [|_]; [lia|]. simpl.
  destruct (Z.leb_spec 0 s) as [_|]; [|lia].
  f_equal. apply ceil_nearest_even; lia.
Qed.

(** X7.  The page number that [__next__] compares with [max_pages], for
    [n] records held and [rows] to the page, both below [2^53]: what
    Python 3 computes, the ceiling of the binary64 number nearest to
    [n / rows], is the exact ceiling of [n / rows] that [page_of] is, the
    number of pages needed to hold [n] records; what Python 2 computes,
    where [/] floors, is the number of full pages that [n] records make;
    and the two agree exactly when [rows] divides [n].  Beyond [2^53]
    the rounding shows: for one record and [rows = 10^400] Python 3
    computes page 0. *)
Theorem page_of_counts_pages (n r : Z) :
  0 ≤ n < 2 ^ 53 → 0 < r < 2 ^ 53 →
  SearchQuery.true_page_of n r = SearchQuery.page_of Py3 n r ∧
  (∃ p, SearchQuery.page_of Py3 n r = Ok p ∧ (p - 1) * r < n ≤ p * r) ∧
  (∃ p, SearchQuery.page_of Py2 n r = Ok p ∧ p * r ≤ n < (p + 1) * r) ∧
  (SearchQuery.page_of Py2 n r = SearchQuery.page_of Py3 n r ↔ (r | n)) ∧
  SearchQuery.true_page_of 1 (10 ^ 400) = Ok 0 ∧
  SearchQuery.page_of Py3 1 (10 ^ 400) = Ok 1.
Proof.
  intros Hn Hr. split; [by apply true_page_of_exact|].
  split_and!; [| | |by vm_compute..].
  - unfold SearchQuery.page_of.
    destruct (Z.eqb_spec r 0) as [|_]; [lia|].
    pose proof (Z.mul_div_le (- n) r ltac:(lia)).
    pose proof (Z.mul_succ_div_gt (- n) r ltac:(lia)).
    eexists. split; [reflexivity|]. lia.
  - unfold SearchQuery.page_of.
    destruct (Z.eqb_spec r 0) as [|_]; [lia|].
    pose proof (Z.mul_div_le n r ltac:(lia)).
    pose proof (Z.mul_succ_div_gt n r ltac:(lia)).
    eexists. split; [reflexivity|]. lia.
  - unfold SearchQuery.page_of.
    destruct (Z.eqb_spec r 0) as [|_]; [lia|].
    pose proof (Z.mul_div_le n r ltac:(lia)).
    pose proof (Z.mul_succ_div_gt n r ltac:(lia)).
    pose proof (Z.mul_div_le (- n) r ltac:(lia)).
    pose proof (Z.mul_succ_div_gt (- n) r ltac:(lia)).
    split.
    + intros [= Heq]. exists (n / r). nia.
    + intros [k ->]. f_equal.
      rewrite <- Z.mul_opp_l, !Z.div_mul by lia. lia.
Qed.

Lemma page_of_counts_pages_witness :
  SearchQuery.true_page_of 7 5 = Ok 2 ∧
  SearchQuery.page_of Py2 7 5 ≠ SearchQuery.page_of Py3 7 5 ∧
  SearchQuery.page_of Py2 10 5 = SearchQuery.page_of Py3 10 5.
Proof.
  destruct (page_of_counts_pages 7 5) as (H7 & _ & _ & Hd7 & _);
    [lia|lia|].
  destruct (page_of_counts_pages 10 5) as (_ & _ & _ & Hd10 & _);
    [lia|lia|].
  split_and!.
  - rewrite H7. reflexivity.
  - intros Heq. apply Hd7 in Heq. destruct Heq as [k Hk]. lia.
  - apply Hd10. exists 2. lia.
Defined.

End PagingFacts.

(** ** BaseQuery: the session *)

Module SessionFacts.
Section WithEnvironment.
Context `{Environment}.

Lemma token_any_session (w : World) (b : BaseQuery.t)
    (s : option (gmap string string)) :
  BaseQuery.token (w, BaseQuery.set_session s b)
  = let '(r, (w', b')) := BaseQuery.token (w, b) in
    (r, (w', BaseQuery.set_session s b')).
Proof.
  unfold BaseQuery.token. munfold. simpl.
  destruct (BaseQuery._token b) as [t|] eqn:Ht; [done|].
  destruct (BaseQuery.first_environ _ _); [done|].
  destruct (BaseQuery.first_file _ _ _); [done|].
  simpl. by rewrite Ht.
Qed.

(** X8.  The session is built at the first access, with the three
    headers the client adds to the defaults: the token as it resolves at
    that moment under [Authorization], written [Bearer None] when none is
    found, the client's name and version, and the JSON content type.
    From then on the same session is returned: a token assigned later,
    or found later, does not reach its [Authorization] header. *)
Theorem session_built_once (w : World) (b : BaseQuery.t) :
  BaseQuery._session b = None →
  ∃ tok w' t hd,
    BaseQuery.token (w, b) = (Ok tok, (w', BaseQuery.set_token t b)) ∧
    BaseQuery.session (w, b) = (Ok hd, (w', BaseQuery.mk (Some hd) t)) ∧
    hd !! "Authorization" = Some (BaseQuery.bearer tok) ∧
    (tok = None → hd !! "Authorization" = Some "Bearer None") ∧
    hd !! "User-Agent" = Some ("ads-api-client/" +:+ __version__) ∧
    hd !! "Content-Type" = Some "application/json" ∧
    (∀ k, k ≠ "Authorization" → k ≠ "User-Agent" → k ≠ "Content-Type" →
          hd !! k = default_headers !! k) ∧
    ∀ w2 t2,
      BaseQuery.session
        (BaseQuery.token_setter t2 (w2, BaseQuery.mk (Some hd) t)).2
      = (Ok hd, (w2, BaseQuery.mk (Some hd) t2)).
Proof.
  intros Hnone.
  destruct (TokenFacts.token_total w b) as (tok & w' & t & Htok & _).
  exists tok, w', t. eexists. split; [exact Htok|].
  split_and!.
  - unfold BaseQuery.session. munfold. simpl. rewrite Hnone.
    cbn [fst snd]. rewrite token_any_session, Htok. simpl. reflexivity.
  - by rewrite lookup_insert_ne, lookup_insert_ne, lookup_insert_eq.
  - intros ->.
    by rewrite lookup_insert_ne, lookup_insert_ne, lookup_insert_eq.
  - by rewrite lookup_insert_ne, lookup_insert_eq.
  - by rewrite lookup_insert_eq.
  - intros k ? ? ?. by rewrite !lookup_insert_ne.
  - intros w2 t2. unfold BaseQuery.session, BaseQuery.token_setter.
    munfold. reflexivity.
Qed.

End WithEnvironment.

Lemma session_built_once_witness :
  ∃ hd w' b',
    @BaseQuery.session Mock.test_iter (Mock.world, BaseQuery.fresh)
    = (Ok hd, (w', b')) ∧
    hd !! "Authorization" = Some "Bearer secret".
Proof.
  destruct (@session_built_once Mock.test_iter Mock.world BaseQuery.fresh)
    as (tok & w' & t & hd & Htok & Hs & Hauth & _); [reflexivity|].
  exists hd, w', (BaseQuery.mk (Some hd) t). split; [exact Hs|].
  rewrite Hauth. injection Htok as <- _ _. reflexivity.
Defined.

End SessionFacts.

(** ** SearchQuery: what an iteration costs *)

Module CountingFacts.


Section WithEnvironment.
Context `{Environment}.

Section Served.
Variable corpus : list (list (string * value)).
Hypothesis Hserves : serves corpus.
Hypothesis Hwrappable : forallb wrappable corpus = true.
Variable r : Z.
Hypothesis Hr : 0 < r.






End Served.
End WithEnvironment.



End CountingFacts.

(** ** Article: reading an attribute, whatever the service answers *)

Module ResolutionFacts.
Section WithEnvironment.
Context `{Environment}.

(** X11.  Reading an attribute of a record, for the name of a field
    (not [_raw], no method of the class, none of the four properties
    without setter, no name in double underscores), any service and any
    depth of nested resolutions: a failure leaves the record as it was,
    so nothing is cached and the next read tries again; a success
    returns a value that the record holds under that name from then on,
    and the record is either unchanged or has gained exactly that value,
    under its attributes and under [_raw], for a cached-property name it
    did not hold.  A record whose attributes are its field map stays so.
    The world only gains requests and warnings. *)
Theorem attribute_read_outcome (depth : nat) (name : string) (w : World)
    (a : Article.t) :
  field_name name = true →
  ∃ res w' a',
    Lazy.__getattribute__ depth name (w, a) = (res, (w', a')) ∧
    environ w' = environ w ∧ files w' = files w ∧
    requests w `prefix_of` requests w' ∧
    match res with
    | Ok v =>
        Article.__dict__ a' !! name = Some v ∧
        (a' = a ∨
         (Article.__dict__ a !! name = None ∧
          name ∈ Article.cached_properties ∧
          a' = Lazy.set_attr name v (Lazy.set_raw name v a)))
    | Raise _ => a' = a
    end ∧
    (Article._raw a = Article.__dict__ a →
     Article._raw a' = Article.__dict__ a').
Proof.
  intros Hname. revert w a. induction depth as [|depth IH]; intros w a.
  - simpl. munfold. cbn [fst snd].
    destruct (Article.__dict__ a !! name) as [v|] eqn:Hheld.
    { eexists _, _, _. split; [reflexivity|]. split_and!; try done. eauto. }
    destruct (bool_decide (name ∈ Article.cached_properties));
      [|destruct (bool_decide (name ∈ Article.read_only))];
      (eexists _, _, _; split; [reflexivity|]; by split_and!).
  - simpl. munfold. cbn [fst snd].
    destruct (Article.__dict__ a !! name) as [v|] eqn:Hheld.
    { eexists _, _, _. split; [reflexivity|]. split_and!; try done. eauto. }
    destruct (bool_decide (name ∈ Article.cached_properties)) eqn:Hcached;
      [|destruct (bool_decide (name ∈ Article.read_only));
        (eexists _, _, _; split; [reflexivity|]; by split_and!)].
    apply bool_decide_eq_true in Hcached.
    unfold Lazy._get_field, Lazy.on_local. munfold. cbn [fst snd].
    destruct (Article.__dict__ a !! "id") as [id|];
      [|eexists _, _, _; split; [reflexivity|]; by split_and!].
    destruct (is_none id);
      [eexists _, _, _; split; [reflexivity|]; by split_and!|].
    destruct (SearchQuery.__init__ _ _ _ _ _ _ _ _ _) as [sq0|e];
      [|eexists _, _, _; split; [reflexivity|]; by split_and!].
    cbn [fst snd].
    destruct (RequestFacts.next_any (w, sq0))
      as (res1 & [w1 sq1] & Hnext & (He1 & Hf1 & Hp1 & _) & _).
    rewrite Hnext. cbn [fst snd] in *.
    destruct res1 as [r1|e];
      [|eexists _, _, _; split; [reflexivity|]; by split_and!].
    destruct (IH w1 r1) as (res2 & w2 & a2 & Hget & He2 & Hf2 & Hp2 & _).
    rewrite Hget. cbn [fst snd].
    destruct res2 as [v|e].
    + eexists _, _, _. split; [reflexivity|]. cbn [fst snd].
      split_and!; try congruence.
      * by etrans.
      * simpl. by rewrite lookup_insert_eq.
      * right. by split_and!.
      * simpl. by intros ->.
    + eexists _, _, _. split; [reflexivity|]. cbn [fst snd].
      split_and!; try congruence. by etrans.
Qed.

(** X12.  When the service holds no record for the identifier, reading a
    cached-property field that the record does not hold sends the one
    request and then raises [StopIteration], the exception that ends the
    iteration of the query; the record is left as it was. *)
Theorem attribute_of_unknown_id (depth : nat) (field : string)
    (w : World) (a : Article.t) (id : value) :
  field ∈ Article.cached_properties →
  Article.__dict__ a !! field = None →
  Article.__dict__ a !! "id" = Some id → id ≠ VNone →
  serves [] →
  ∃ w' hd,
    Lazy.__getattribute__ (S depth) field (w, a)
    = (Raise all_found, (w', a)) ∧
    requests w'
    = requests w ++ [mkRequest SEARCH_URL hd (back_query id field)].
Proof.
  intros Hin Hfield Hid Hnone Hserves.
  set (sq0 := SearchQuery.mk BaseQuery.fresh [] None 3 0 (back_query id field)).
  destruct (IterationFacts.next_unstarted [] Hserves eq_refl 50 eq_refl
              w sq0) as (w1 & sq1 & Hnext & Hf1 & _ & hd & Hreq);
    [by unfold unstarted|].
  pose proof (IterationFacts.held_length [] 50 1 0 sq1 Hf1) as Hlen.
  pose proof (IterationFacts.next_all_found [] 50 eq_refl w1 1 0 sq1 Hf1)
    as Hstop.
  rewrite Hstop in Hnext by (simpl in *; lia).
  exists w1, hd. split; [|done].
  simpl. munfold. cbn [fst snd]. rewrite Hfield.
  rewrite bool_decide_eq_true_2 by done.
  unfold Lazy._get_field, Lazy.on_local. munfold. cbn [fst snd]. rewrite Hid.
  apply is_none_false_iff in Hnone. rewrite Hnone.
  assert (SearchQuery.__init__ None (Some ("id:" +:+ str_format id)) None
            (Some (FlOne field)) None (Some 0) (Some 50) 3 [] = Ok sq0) as ->.
  { unfold SearchQuery.__init__. simpl. by destruct py. }
  cbn [fst snd]. by rewrite Hnext.
Qed.

End WithEnvironment.

Lemma attribute_of_unknown_id_witness :
  ∃ w',
    @Lazy.__getattribute__ Mock.nothing 1 "abstract"
      (Mock.world, record_of [("id", VInt 7)])
    = (Raise all_found, (w', record_of [("id", VInt 7)])) ∧
    length (requests w') = 1%nat.
Proof.
  destruct (@attribute_of_unknown_id Mock.nothing 0 "abstract" Mock.world
              (record_of [("id", VInt 7)]) (VInt 7))
    as (w' & hd & Hget & Hreq).
  - apply (bool_decide_unpack _). by vm_compute.
  - reflexivity.
  - reflexivity.
  - discriminate.
  - apply IterationFacts.mock_serves.
  - exists w'. split; [exact Hget|]. by rewrite Hreq.
Defined.


Lemma attribute_read_outcome_witness :
  ∃ res w' a',
    @Lazy.__getattribute__ Mock.abstracts 2 "abstract"
      (Mock.world, record_of [("id", VInt 7)]) = (res, (w', a')) ∧
    Article._raw a' = Article.__dict__ a'.
Proof.
  destruct (@attribute_read_outcome Mock.abstracts 2 "abstract" Mock.world
              (record_of [("id", VInt 7)]))
    as (res & w' & a' & Hget & _ & _ & _ & _ & Hraw); [reflexivity|].
  exists res, w', a'. split; [exact Hget|]. apply Hraw. reflexivity.
Defined.

End ResolutionFacts.

(** ** Article: the text of a record *)

Module DisplayFacts.
Section WithEnvironment.
Context `{Environment}.

(** X13.  The text of a record is made of the attributes
    [first_author], [author], [year] and [bibcode].  When the record
    holds them, with a string for the first author and a list for the
    authors, nothing is sent and the record is unchanged; the author
    shown is the first author, or [Unknown author] when that is empty,
    followed by [et al.] exactly when the list has more than one author.
    A record without [first_author] cannot be shown: that name is no
    field resolved on demand, so the read raises [AttributeError] and
    nothing is sent, with or without an identifier. *)
Theorem unicode_of_held (depth : nat) (w : World) (a : Article.t)
    (first_author : string) (authors : list value) (year bibcode : value) :
  (Article.__dict__ a !! "first_author" = Some (VStr first_author) →
   Article.__dict__ a !! "author" = Some (VList authors) →
   Article.__dict__ a !! "year" = Some year →
   Article.__dict__ a !! "bibcode" = Some bibcode →
   let shown :=
     if String.eqb first_author EmptyString then "Unknown author"
     else first_author in
   Display.__unicode__ depth (w, a)
   = (Ok ("<" +:+
          str_format (VStr (if (1 <? length authors)%nat
                            then shown +:+ " et al." else shown)) +:+
          " " +:+ str_format year +:+ ", " +:+ str_format bibcode +:+ ">"),
      (w, a))) ∧
  (Article.__dict__ a !! "first_author" = None →
   Display.__unicode__ depth (w, a)
   = (Raise (AttributeError "first_author"), (w, a))).
Proof.
  split.
  - intros Hfirst Hauthors Hyear Hbibcode shown.
    unfold Display.__unicode__. munfold.
    rewrite (LazyFacts.getattribute_held depth _ _ w a Hfirst). cbn [fst snd].
    rewrite (LazyFacts.getattribute_held depth _ _ w a Hauthors).
    cbn [fst snd].
    assert ((if truthy (VStr first_author) then VStr first_author
             else VStr "Unknown author") = VStr shown) as ->.
    { subst shown. by destruct first_author. }
    destruct authors as [|x [|y authors]]; simpl.
    + rewrite (LazyFacts.getattribute_held depth _ _ w a Hyear).
      cbn [fst snd].
      by rewrite (LazyFacts.getattribute_held depth _ _ w a Hbibcode).
    + rewrite (LazyFacts.getattribute_held depth _ _ w a Hauthors).
      cbn [fst snd py_len length]. simpl.
      rewrite (LazyFacts.getattribute_held depth _ _ w a Hyear).
      cbn [fst snd].
      by rewrite (LazyFacts.getattribute_held depth _ _ w a Hbibcode).
    + rewrite (LazyFacts.getattribute_held depth _ _ w a Hauthors).
      cbn [fst snd py_len].
      assert ((1 <? Z.of_nat (length (x :: y :: authors))) = true) as ->
        by (apply Z.ltb_lt; simpl; lia).
      unfold Display.add_suffix. munfold. cbn [fst snd].
      rewrite (LazyFacts.getattribute_held depth _ _ w a Hyear).
      cbn [fst snd].
      by rewrite (LazyFacts.getattribute_held depth _ _ w a Hbibcode).
  - intros Hfirst. unfold Display.__unicode__. munfold.
    assert (Lazy.__getattribute__ depth "first_author" (w, a)
            = (Raise (AttributeError "first_author"), (w, a))) as ->; [|done].
    destruct depth; simpl; munfold; cbn [fst snd]; by rewrite Hfirst.
Qed.

End WithEnvironment.

Lemma unicode_of_held_witness :
  @Display.__unicode__ Mock.nothing 0
    (Mock.world,
     record_of [("first_author", VStr "Sudilovsky, V.");
                ("author", VList [VStr "Sudilovsky, V."; VStr "Greiner, J."]);
                ("year", VInt 2013);
                ("bibcode", VStr "2013A&A...552A.143S")])
  = (Ok "<Sudilovsky, V. et al. 2013, 2013A&A...552A.143S>",
     (Mock.world,
      record_of [("first_author", VStr "Sudilovsky, V.");
                 ("author", VList [VStr "Sudilovsky, V."; VStr "Greiner, J."]);
                 ("year", VInt 2013);
                 ("bibcode", VStr "2013A&A...552A.143S")])).
Proof.
  refine (proj1 (@unicode_of_held Mock.nothing 0 Mock.world
                   (record_of
                      [("first_author", VStr "Sudilovsky, V.");
                       ("author",
                        VList [VStr "Sudilovsky, V."; VStr "Greiner, J."]);
                       ("year", VInt 2013);
                       ("bibcode", VStr "2013A&A...552A.143S")])
                   "Sudilovsky, V."
                   [VStr "Sudilovsky, V."; VStr "Greiner, J."]
                   (VInt 2013) (VStr "2013A&A...552A.143S")) _ _ _ _);
    reflexivity.
Defined.

End DisplayFacts.

(** ** MetricsQuery *)

Module MetricsFacts.
Section WithEnvironment.
Context `{Environment} `{MetricsService}.

(** One call of [execute], step by step. *)
Lemma execute_steps (w : MetricsWorld) (mq : MetricsQuery.t) :
  ∃ hd w1 b1,
    BaseQuery.session (world w, MetricsQuery.base mq) = (Ok hd, (w1, b1)) ∧
    same_outside (world w) w1 ∧
    MetricsQuery.execute (w, mq)
    = let post := mkPost METRICS_URL hd (MetricsQuery.json_payload mq) in
      let w2 := mkMetricsWorld w1 (posts w ++ [post]) in
      match rbind (http_post post) MetricsResponse.load_http_response with
      | Raise e => (Raise e, (w2, MetricsQuery.set_base b1 mq))
      | Ok r =>
          (Ok r, (w2, MetricsQuery.set_response (Some r)
                        (MetricsQuery.set_base b1 mq)))
      end.
Proof.
  destruct (ExecuteFacts.session_total (world w) (MetricsQuery.base mq))
    as (hd & w1 & b1 & Hs & Hw1).
  exists hd, w1, b1. split; [done|]. split; [done|].
  unfold MetricsQuery.execute, MetricsQuery.on_base, MetricsQuery.log_post,
    MetricsQuery.HTTP_ENDPOINT.
  munfold. cbn [fst snd]. rewrite Hs. cbn [fst snd].
  unfold MetricsQuery.set_base at 1. cbn [MetricsQuery.json_payload].
  destruct (http_post _) as [h|e]; simpl; [|done].
  by destruct (MetricsResponse.load_http_response h).
Qed.

(** X14.  Under Python 3 no [MetricsQuery] can be constructed: the
    constructor names [basestring], which that interpreter does not
    know.  Under Python 2 a single bibcode given as a string makes the
    same query as the list of that one bibcode, and executing it posts
    the encoding of the object that holds this list under the key
    [bibcodes]. *)
Theorem metrics_of_single_bibcode (s : string) (w : MetricsWorld) :
  (py = Py3 →
   ∀ bibcodes, MetricsQuery.__init__ bibcodes = NameError "basestring") ∧
  (py = Py2 →
   ∃ mq,
     MetricsQuery.__init__ (VStr s) = Constructed mq ∧
     MetricsQuery.__init__ (VList [VStr s]) = Constructed mq ∧
     MetricsQuery.bibcodes mq = VList [VStr s] ∧
     ∃ hd res w' mq',
       MetricsQuery.execute (w, mq) = (res, (w', mq')) ∧
       posts w'
       = posts w ++
         [mkPost METRICS_URL hd
            (json_dumps (VDict [("bibcodes", VList [VStr s])]))]).
Proof.
  unfold MetricsQuery.__init__. split; intros ->; [done|].
  eexists. split; [reflexivity|]. split; [reflexivity|].
  split; [reflexivity|].
  match goal with
  | |- context [MetricsQuery.execute (w, ?q)] =>
      destruct (execute_steps w q) as (hd & w1 & b1 & _ & _ & ->)
  end.
  exists hd. cbn [MetricsQuery.json_payload].
  destruct (rbind _ _); eexists _, _, _; (split; [reflexivity|done]).
Qed.

(** X15.  A call of [execute] on a metrics query posts once, to the
    metrics endpoint, under the headers of the session, the payload
    built by the constructor, and sends nothing to the search endpoint.
    When the answer is a success whose body decodes, the response made
    of it, with the HTTP response attached, is stored and returned.
    When the post fails, or the answer is an error (raised as
    [APIResponseError] with its body), or the body does not decode, the
    call raises and the response stored before stays. *)
Theorem metrics_execute (w : MetricsWorld) (mq : MetricsQuery.t) :
  ∃ hd w1 b1 res w' mq',
    BaseQuery.session (world w, MetricsQuery.base mq) = (Ok hd, (w1, b1)) ∧
    MetricsQuery.execute (w, mq) = (res, (w', mq')) ∧
    posts w'
    = posts w ++ [mkPost METRICS_URL hd (MetricsQuery.json_payload mq)] ∧
    world w' = w1 ∧ requests w1 = requests (world w) ∧
    MetricsQuery.base mq' = b1 ∧
    MetricsQuery.bibcodes mq' = MetricsQuery.bibcodes mq ∧
    MetricsQuery.json_payload mq' = MetricsQuery.json_payload mq ∧
    match http_post (mkPost METRICS_URL hd (MetricsQuery.json_payload mq)) with
    | Raise e =>
        res = Raise e ∧ MetricsQuery.response mq' = MetricsQuery.response mq
    | Ok h =>
        if ok h then
          match json_loads (text h) with
          | Some j =>
              res = Ok (MetricsResponse.mk (text h) j (Some h)) ∧
              MetricsQuery.response mq'
              = Some (MetricsResponse.mk (text h) j (Some h))
          | None =>
              res = Raise ValueError ∧
              MetricsQuery.response mq' = MetricsQuery.response mq
          end
        else
          res = Raise (APIResponseError (text h)) ∧
          MetricsQuery.response mq' = MetricsQuery.response mq
    end.
Proof.
  destruct (execute_steps w mq) as (hd & w1 & b1 & Hs & (_ & _ & Hreq) & ->).
  exists hd, w1, b1. cbn zeta.
  destruct (http_post _) as [h|e]; simpl.
  - unfold MetricsResponse.load_http_response, APIResponse.load_http_response,
      MetricsResponse.__init__.
    destruct (ok h); simpl.
    + destruct (json_loads (text h)) as [j|]; simpl;
        eexists _, _, _; (split; [done|]); (split; [reflexivity|]); by simpl.
    + eexists _, _, _. split; [done|]. split; [reflexivity|]. by simpl.
  - eexists _, _, _. split; [done|]. split; [reflexivity|]. by simpl.
Qed.

End WithEnvironment.

Lemma metrics_of_single_bibcode_witness :
  (∃ mq, @MetricsQuery.__init__ MockDefaults.python2 MockDefaults.metrics
           (VStr "2013A&A...552A.143S") = Constructed mq ∧
         MetricsQuery.bibcodes mq = VList [VStr "2013A&A...552A.143S"]) ∧
  @MetricsQuery.__init__ Mock.test_iter MockDefaults.metrics
    (VStr "2013A&A...552A.143S") = NameError "basestring".
Proof.
  split.
  - destruct (@metrics_of_single_bibcode MockDefaults.python2
                MockDefaults.metrics "2013A&A...552A.143S"
                (mkMetricsWorld Mock.world []))
      as [_ Hpy2].
    destruct Hpy2 as (mq & Hinit & _ & Hbib & _); [reflexivity|].
    exists mq. split; [exact Hinit|exact Hbib].
  - destruct (@metrics_of_single_bibcode Mock.test_iter
                MockDefaults.metrics "2013A&A...552A.143S"
                (mkMetricsWorld Mock.world []))
      as [Hpy3 _].
    apply Hpy3. reflexivity.
Defined.

End MetricsFacts.

(** ** SearchQuery: the rate limits of the last answer *)

Module RateLimitFacts.

Lemma wrap_keeps_envelope (ds : list value) (w : World) (c : SolrResponse.t) :
  SolrResponse.response (SolrResponse.wrap ds (w, c)).2.2
  = SolrResponse.response c ∧
  SolrResponse._raw (SolrResponse.wrap ds (w, c)).2.2 = SolrResponse._raw c.
Proof.
  revert w c. induction ds as [|doc ds IH]; intros w c; [done|].
  simpl. munfold. simpl.
  destruct (Article.new doc w) as [[a|e] w1]; simpl; [|done].
  destruct (IH w1 (SolrResponse.set_articles
                     (Some (default [] (SolrResponse._articles c) ++ [a])) c))
    as [-> ->].
  done.
Qed.

Lemma articles_keeps_envelope (w : World) (c : SolrResponse.t) :
  SolrResponse.response (SolrResponse.articles (w, c)).2.2
  = SolrResponse.response c ∧
  SolrResponse._raw (SolrResponse.articles (w, c)).2.2 = SolrResponse._raw c.
Proof.
  unfold SolrResponse.articles. munfold. simpl.
  destruct (SolrResponse._articles c); simpl; [done|].
  destruct (SolrResponse.py_iter (SolrResponse.docs c)) as [ds|]; simpl;
    [|done].
  pose proof (wrap_keeps_envelope ds w
                (SolrResponse.set_articles (Some []) c)) as Hwrap.
  by destruct (SolrResponse.wrap ds _) as [[[]|e] [w1 c1]].
Qed.

Section WithEnvironment.
Context `{Environment}.

(** X16.  After a call of [execute] that returns, the response the query
    holds is the one made of the answer to the request just sent: its
    raw text is the body of that answer, and [get_ratelimits] on it
    gives the three rate-limit headers of that answer, [None] for each
    one the answer does not carry, whatever the case in which the answer
    wrote their names. *)
Theorem ratelimits_after_execute (w w' : World) (sq sq' : SearchQuery.t) :
  SearchQuery.execute (w, sq) = (Ok tt, (w', sq')) →
  ∃ hd h c,
    requests w'
    = requests w ++ [mkRequest SearchQuery.HTTP_ENDPOINT hd
                       (SearchQuery._query sq)] ∧
    http_get (mkRequest SearchQuery.HTTP_ENDPOINT hd (SearchQuery._query sq))
    = Ok h ∧
    ok h = true ∧
    SearchQuery.response sq' = Some c ∧
    SolrResponse._raw c = text h ∧
    SolrResponse.get_ratelimits c
    = Ok (headers h !! "X-RateLimit-Limit",
          headers h !! "X-RateLimit-Remaining",
          headers h !! "X-RateLimit-Reset") ∧
    (∀ name name' : string,
       lower name = lower name' → headers h !! name = headers h !! name') ∧
    (∀ (name name' v : string) (hs : Headers),
       headers h = <[name := v]> hs → lower name = lower name' →
       headers h !! name' = Some v).
Proof.
  unfold SearchQuery.execute. munfold.
  unfold SearchQuery.on_base, SearchQuery.on_response, zoom. simpl.
  destruct (ExecuteFacts.session_total w (SearchQuery.base sq))
    as (hd & w1 & b1 & Hs & (_ & _ & Hreq1)).
  rewrite Hs. simpl. unfold SearchQuery.query.
  destruct (http_get _) as [h|] eqn:Hget; [|done].
  destruct (SolrResponse.load_http_response h) as [c|] eqn:Hload; [|done].
  simpl.
  assert (ok h = true ∧ SolrResponse.response c = SolrResponse.FromHTTP h ∧
          SolrResponse._raw c = text h) as (Hok & Hresp & Hraw).
  { revert Hload.
    unfold SolrResponse.load_http_response, APIResponse.load_http_response.
    destruct (ok h); simpl; [|done].
    destruct (SolrResponse.__init__ (text h)) as [c0|] eqn:Hinit; simpl;
      [|done].
    intros [= <-]. simpl. split; [done|]. split; [done|].
    by eapply EnvelopeInit.init_attributes. }
  match goal with
  | |- context [SolrResponse.articles (?w0, c)] =>
      pose proof (articles_keeps_envelope w0 c) as (Hkeep & Hkeepraw);
      pose proof (RequestFacts.articles_same_outside w0 c) as (_ & _ & Hreq2);
      destruct (SolrResponse.articles (w0, c)) as [[arts|e] [w2 c2]]
  end; simpl in *; [|done].
  destruct (Query.start (SearchQuery._query sq)) as [st|]; [|done].
  destruct (Query.rows (SearchQuery._query sq)) as [r|]; [|done].
  simpl. intros; simplify_eq.
  exists hd, h, c2. simpl. split_and!; try done.
  - by rewrite Hreq2, Hreq1.
  - congruence.
  - unfold SolrResponse.get_ratelimits. by rewrite Hkeep, Hresp.
  - intros name name' Hcase. unfold lookup, Headers_lookup.
    by rewrite Hcase.
  - intros name name' v hs -> Hcase.
    unfold lookup at 1, Headers_lookup, insert, Headers_insert. simpl.
    by rewrite Hcase, lookup_insert_eq.
Qed.

End WithEnvironment.

Lemma ratelimits_after_execute_witness :
  ∃ w' sq' c,
    @SearchQuery.execute MockDefaults.limited
      (Mock.world, new_query "unittest" 1 20) = (Ok tt, (w', sq')) ∧
    SearchQuery.response sq' = Some c ∧
    SolrResponse.get_ratelimits c
    = Ok (Some "5000", Some "4999", Some "1435190400").
Proof.
  assert ((@SearchQuery.execute MockDefaults.limited
             (Mock.world, new_query "unittest" 1 20)).1 = Ok tt) as Hrun
    by (vm_compute; reflexivity).
  destruct (@SearchQuery.execute MockDefaults.limited
              (Mock.world, new_query "unittest" 1 20))
    as [res [w' sq']] eqn:Hex.
  simpl in Hrun. subst res.
  destruct (@ratelimits_after_execute MockDefaults.limited _ _ _ _ Hex)
    as (hd & h & c & _ & Hget & _ & Hresp & _ & Hlimits & _).
  exists w', sq', c. split; [reflexivity|]. split; [exact Hresp|].
  rewrite Hlimits. injection Hget as <-. reflexivity.
Defined.

End RateLimitFacts.

(** ** Article: the properties that are not implemented *)

Module UnimplementedFacts.

Lemma setattrs_keys (kwargs : list (string * value)) :
  ∀ (m d : gmap string value) (name : string),
    Article.setattrs kwargs m = Ok d →
    name ∈ Article.read_only → m !! name = None → d !! name = None.
Proof.
  induction kwargs as [|[k v] kwargs IH]; intros m d name Hset Hname Hm.
  - simpl in Hset. by simplify_eq.
  - simpl in Hset. case_bool_decide as Hk; [done|].
    apply (IH _ _ name Hset Hname).
    rewrite lookup_insert_ne; [done|]. by intros ->.
Qed.

Section WithEnvironment.
Context `{Environment}.

(** X17.  On any record that the constructor returns, reading [bibtex],
    [references], [citations] or [metrics] raises [NotImplementedError];
    nothing is sent and the record is unchanged. *)
Theorem read_only_not_implemented (kwargs : list (string * value))
    (w w' w2 : World) (a : Article.t) (name : string) (depth : nat) :
  Article.__init__ kwargs w = (Ok a, w') →
  name ∈ Article.read_only →
  Lazy.__getattribute__ depth name (w2, a)
  = (Raise NotImplementedError, (w2, a)).
Proof.
  intros Hinit Hname. rewrite RecordFacts.init_after_id_check in Hinit.
  destruct (Article.setattrs kwargs ∅) as [d|] eqn:Hset; [|done].
  simplify_eq.
  pose proof (setattrs_keys kwargs ∅ d name Hset Hname (lookup_empty _))
    as Hnone.
  assert (name ∉ Article.cached_properties) as Hcached.
  { intros Hin. revert Hname. unfold Article.read_only.
    rewrite !elem_of_cons, elem_of_nil.
    intros [->|[->|[->|[->|[]]]]];
      revert Hin; apply (bool_decide_unpack _); by vm_compute. }
  destruct depth; simpl; munfold; cbn [fst snd Article.__dict__];
    rewrite Hnone; rewrite bool_decide_eq_false_2 by done;
    by rewrite bool_decide_eq_true_2.
Qed.

End WithEnvironment.

Lemma read_only_not_implemented_witness :
  @Lazy.__getattribute__ Mock.nothing 3 "metrics"
    (Mock.world, record_of [("id", VInt 7)])
  = (Raise NotImplementedError, (Mock.world, record_of [("id", VInt 7)])).
Proof.
  apply (@read_only_not_implemented Mock.nothing [("id", VInt 7)]
           Mock.world Mock.world).
  - reflexivity.
  - apply (bool_decide_unpack _). by vm_compute.
Defined.

End UnimplementedFacts.
